(** * fature-gamification-service: the gamification engine

    A shallow embedding of [src/gamification-engine.js] (the classes
    [GamificationEngine], [BehaviorAnalyzer], [ChestOptimizer] and
    [RewardCalculator]) together with the properties of the engine that
    the specification states.

    JavaScript numbers are IEEE 754 binary64 values; they are embedded as
    Rocq's primitive floats, so every arithmetic step and every comparison
    of the source is evaluated with the rounding the engine really
    performs.  [undefined] reaching an arithmetic position is coerced to
    [NaN] by the language, and is represented by [NaN] here. *)

From Stdlib Require Import Floats ZArith List Bool Sorting.Sorted Sorting.Permutation Lia.
From stdpp Require Import base gmap strings list sorting.

#[local] Set Warnings "-inexact-float".

(** ** The JavaScript runtime the engine relies on *)

Module JS.

Definition number := float.
Bind Scope float_scope with number.

Definition NaN : number := PrimFloat.nan.

(** [a > b], [a < b], [a >= b] on numbers: false as soon as one side is
    [NaN]. *)
Definition gt (a b : number) : bool := PrimFloat.ltb b a.
Definition lt (a b : number) : bool := PrimFloat.ltb a b.
Definition ge (a b : number) : bool := PrimFloat.leb b a.

(** A length or a counter as a number (exact below 2^53). *)
Definition of_nat (n : nat) : number :=
  PrimFloat.of_uint63 (Uint63.of_Z (Z.of_nat n)).

(** An integral time value (milliseconds) as a number; time values stay
    within 8.64e15 of zero, where the conversion is exact. *)
Definition of_Z (z : Z) : number :=
  if (z <? 0)%Z then PrimFloat.opp (PrimFloat.of_uint63 (Uint63.of_Z (- z)))
  else PrimFloat.of_uint63 (Uint63.of_Z z).

(** [Math.max(a, b)] and [Math.min(a, b)]: [NaN] is contagious and
    [+0] is larger than [-0]. *)
Definition Math_max (a b : number) : number :=
  if PrimFloat.is_nan a || PrimFloat.is_nan b then NaN
  else if PrimFloat.ltb a b then b
  else if PrimFloat.ltb b a then a
  else if PrimFloat.is_zero a && PrimFloat.get_sign a then b else a.

Definition Math_min (a b : number) : number :=
  if PrimFloat.is_nan a || PrimFloat.is_nan b then NaN
  else if PrimFloat.ltb a b then a
  else if PrimFloat.ltb b a then b
  else if PrimFloat.is_zero a && PrimFloat.get_sign a then a else b.

(** [Math.max(...values)]. *)
Definition Math_max_spread (values : list number) : number :=
  fold_left Math_max values PrimFloat.neg_infinity.

(** [values.reduce((a, b) => a + b, 0)]. *)
Definition sum (values : list number) : number :=
  fold_left PrimFloat.add values 0%float.

(** [x || 0] on a number: [0], [-0] and [NaN] are falsy. *)
Definition or_zero (x : number) : number :=
  if PrimFloat.is_nan x || PrimFloat.is_zero x then 0%float else x.

(** *** [Array.prototype.sort]

    The comparator is consulted through [SortCompare], which turns a
    [NaN] answer into [+0]; only the sign of the answer is ever used, so
    the model takes the test [SortCompare(x, y) < 0] as its argument.

    ECMAScript fixes the outcome when the comparator is consistent (the
    sort is stable) and leaves it to the implementation otherwise.  The
    service runs on Node.js, whose engine sorts an array of fewer than
    64 elements by detecting the initial run ([CountAndMakeRun]) and
    inserting every later element by binary search
    ([BinaryInsertionSort]).  That is the algorithm below; both arrays
    the engine sorts have fewer than 64 elements. *)

Definition order_lt0 {A} (comparefn : A -> A -> number) (x y : A) : bool :=
  let v := comparefn x y in
  PrimFloat.ltb (if PrimFloat.is_nan v then 0%float else v) 0%float.

Section ArraySort.
Context {A : Type} (lt0 : A -> A -> bool).

(** How far the run that starts with [prev] extends into [rest]. *)
Fixpoint run_ext (desc : bool) (prev : A) (rest : list A) : nat :=
  match rest with
  | [] => 0
  | cur :: rest' =>
      if Bool.eqb (lt0 cur prev) desc then S (run_ext desc cur rest') else 0
  end.

(** The length of the initial run, and the array once a strictly
    descending run has been reversed in place. *)
Definition CountAndMakeRun (l : list A) : nat * list A :=
  match l with
  | [] => (0, l)
  | [_] => (1, l)
  | high :: low :: rest =>
      let desc := lt0 low high in
      let n := 2 + run_ext desc low rest in
      (n, if desc then reverse (take n l) ++ drop n l else l)
  end.

(** The insertion point of [pivot] in the sorted prefix [pre], searched
    in the index range [left, right). *)
Fixpoint bsearch (fuel : nat) (pivot : A) (pre : list A) (left right : nat) : nat :=
  match fuel with
  | 0 => left
  | S fuel' =>
      if left <? right then
        let mid := left + (right - left) / 2 in
        match pre !! mid with
        | Some y =>
            if lt0 pivot y then bsearch fuel' pivot pre left mid
            else bsearch fuel' pivot pre (mid + 1) right
        | None => left
        end
      else left
  end.

Definition insert_at (i : nat) (x : A) (l : list A) : list A :=
  take i l ++ x :: drop i l.

Fixpoint BinaryInsertionSort (pre rest : list A) : list A :=
  match rest with
  | [] => pre
  | pivot :: rest' =>
      let left := bsearch (S (length pre)) pivot pre 0 (length pre) in
      BinaryInsertionSort (insert_at left pivot pre) rest'
  end.

Definition Array_sort (l : list A) : list A :=
  let '(n, l') := CountAndMakeRun l in
  BinaryInsertionSort (take n l') (drop n l').
End ArraySort.

(** *** Dates

    A [Date] is invalid or holds an integral time value in milliseconds
    since the epoch. *)
Inductive Date : Type :=
| InvalidDate
| DateAt (t : Z).

Definition getTime (d : Date) : number :=
  match d with
  | InvalidDate => NaN
  | DateAt t => of_Z t
  end.

(** What [getHours()] answers, as the property key it becomes when the
    engine indexes an object with it: one of "0" .. "23", or "NaN". *)
Inductive HourKey : Type :=
| KHour (h : nat)
| KNaN.

Definition msPerHour : Z := 3600000.

(** [tzOffset t] is the offset of local time from UTC, in milliseconds,
    at the instant [t]. *)
Definition getHours (tzOffset : Z -> Z) (d : Date) : HourKey :=
  match d with
  | InvalidDate => KNaN
  | DateAt t => KHour (Z.to_nat (((t + tzOffset t) / msPerHour) mod 24))
  end.

Definition HourKey_eqb (a b : HourKey) : bool :=
  match a, b with
  | KHour x, KHour y => Nat.eqb x y
  | KNaN, KNaN => true
  | _, _ => false
  end.

(** Property order of an object: integer keys in ascending numeric
    order first, then the other keys in insertion order.  "NaN" is the
    only key of the second kind. *)
Definition HourKey_ltb (a b : HourKey) : bool :=
  match a, b with
  | KHour x, KHour y => Nat.ltb x y
  | KHour _, KNaN => true
  | KNaN, _ => false
  end.

(** *** Property lookup on an object literal

    [object[key]] on an object written as a literal finds the object's
    own properties and, failing that, the members every object inherits
    from [Object.prototype].  These are the names of the inherited
    members. *)
Definition Object_prototype_members : list string :=
  ["constructor"; "__defineGetter__"; "__defineSetter__"; "hasOwnProperty";
   "__lookupGetter__"; "__lookupSetter__"; "isPrototypeOf";
   "propertyIsEnumerable"; "toString"; "valueOf"; "__proto__";
   "toLocaleString"]%string.

Definition inherited (key : string) : bool :=
  existsb (String.eqb key) Object_prototype_members.

(** *** Abrupt completion *)
Inductive Error : Type :=
| TypeError
| SyntaxError
| RequestError.

Inductive Completion (A : Type) : Type :=
| Normal (a : A)
| Throw (e : Error).
Arguments Normal {A} a.
Arguments Throw {A} e.

Definition HourKey_lt (a b : HourKey) : Prop := HourKey_ltb a b = true.

#[global] Instance HourKey_eq_dec : EqDecision HourKey.
Proof. solve_decision. Defined.

End JS.


(** ** [class BehaviorAnalyzer] *)

Module BehaviorAnalyzer.
Import JS.

(** The records of a user's history.  A date field holds the [Date] that
    [new Date(field)] builds from it. *)
Record DepositRecord : Type := {
  deposit_date : Date;
  deposit_amount : number
}.

Record BetRecord : Type := {
  bet_date : Date;
  bet_amount : number;
  bet_result : string
}.

Record SessionRecord : Type := {
  startTime : Date;
  duration : number
}.

(** [userData]; an absent history is the empty array (the destructuring
    defaults of [analyze]). *)
Record UserData : Type := {
  depositHistory : list DepositRecord;
  betHistory : list BetRecord;
  sessionHistory : list SessionRecord;
  registrationDate : Date;
  lastActivity : Date
}.

Inductive Trend : Type := trend_none | stable | increasing | decreasing.
Inductive RiskProfile : Type := unknown | aggressive | conservative | moderate.
Inductive ActivityLevel : Type :=
  activity_very_high | activity_high | activity_medium | activity_low.
Inductive RiskLevel : Type := low | medium | high | very_high.
Inductive Pattern : Type :=
  frequent_depositor | volatile_deposits | high_risk_bettor | frequent_loser
| inactive_user.

Record DepositAnalysis : Type := {
  deposit_frequency : number;
  deposit_averageAmount : number;
  trend : Trend;
  volatility : number;
  totalDeposits : option nat;
  deposit_totalAmount : option number
}.

Record BettingAnalysis : Type := {
  bet_frequency : number;
  bet_averageAmount : number;
  winRate : number;
  riskProfile : RiskProfile;
  totalBets : option nat;
  bet_totalAmount : option number
}.

Record SessionAnalysis : Type := {
  averageDuration : number;
  session_frequency : number;
  peakHours : list HourKey;
  totalSessions : option nat
}.

Record TemporalAnalysis : Type := {
  accountAge : number;
  daysSinceLastActivity : number;
  activityLevel : ActivityLevel
}.

Record Analyses : Type := {
  depositAnalysis : DepositAnalysis;
  bettingAnalysis : BettingAnalysis;
  sessionAnalysis : SessionAnalysis;
  temporalAnalysis : TemporalAnalysis
}.

Record BehaviorAnalysis : Type := {
  score : number;
  riskLevel : RiskLevel;
  patterns : list Pattern;
  recommendations : list string;
  details : Analyses
}.

(** [1000 * 60 * 60 * 24] *)
Definition msPerDay : number := (1000 * 60 * 60 * 24)%float.

(** [values.reduce((a, b) => a + b, 0) / values.length] *)
Definition average (values : list number) : number :=
  (sum values / of_nat (length values))%float.

(** [Math.max(1, (last - first) / (1000 * 60 * 60 * 24))] *)
Definition daysDiff (first last : Date) : number :=
  Math_max 1%float ((getTime last - getTime first) / msPerDay)%float.

Definition calculateTrend (values : list number) : Trend :=
  if length values <? 2 then stable
  else
    let firstHalf := firstn (length values / 2) values in
    let secondHalf := skipn (length values / 2) values in
    let firstAvg := average firstHalf in
    let secondAvg := average secondHalf in
    if gt secondAvg (firstAvg * 1.1)%float then increasing
    else if lt secondAvg (firstAvg * 0.9)%float then decreasing
    else stable.

(** [Math.pow(val - mean, 2)] is the square of the difference. *)
Definition calculateVolatility (values : list number) : number :=
  if length values <? 2 then 0%float
  else
    let mean := average values in
    let variance :=
      (fold_left (fun sum val => sum + (val - mean) * (val - mean)) values 0
       / of_nat (length values))%float in
    (PrimFloat.sqrt variance / mean)%float.

Definition determineRiskProfile (amounts : list number) (betHistory : list BetRecord)
  : RiskProfile :=
  let avgAmount := average amounts in
  let maxAmount := Math_max_spread amounts in
  if gt maxAmount (avgAmount * 5)%float then aggressive
  else if lt avgAmount 10%float then conservative
  else moderate.

(** [hourCounts[hour] = (hourCounts[hour] || 0) + 1].  The object is kept
    as the list of its entries in property order, which is the order
    [Object.entries] enumerates them in. *)
Fixpoint hourCounts_incr (hour : HourKey) (hourCounts : list (HourKey * nat))
  : list (HourKey * nat) :=
  match hourCounts with
  | [] => [(hour, 1)]
  | (k, c) :: rest =>
      if HourKey_eqb hour k then (k, S c) :: rest
      else if HourKey_ltb hour k then (hour, 1) :: (k, c) :: rest
      else (k, c) :: hourCounts_incr hour rest
  end.

(** The comparator [([,a], [,b]) => b - a] on two entries, as the test
    that its answer is negative.  Counts are exact integers. *)
Definition byCountDesc (x y : HourKey * nat) : bool :=
  (Z.of_nat (snd y) - Z.of_nat (snd x) <? 0)%Z.

(** The hours come back through [parseInt]: "7" as 7, "NaN" as NaN. *)
Definition identifyPeakHours (tzOffset : Z -> Z) (sessionHistory : list SessionRecord)
  : list HourKey :=
  let hourCounts :=
    fold_left (fun o session => hourCounts_incr (getHours tzOffset (startTime session)) o)
      sessionHistory [] in
  map fst (firstn 3 (Array_sort byCountDesc hourCounts)).

Definition calculateActivityLevel (accountAge daysSinceLastActivity : number)
  : ActivityLevel :=
  if lt daysSinceLastActivity 1%float then activity_very_high
  else if lt daysSinceLastActivity 7%float then activity_high
  else if lt daysSinceLastActivity 30%float then activity_medium
  else activity_low.

Definition analyzeDeposits (depositHistory : list DepositRecord) : DepositAnalysis :=
  match depositHistory with
  | [] => {| deposit_frequency := 0; deposit_averageAmount := 0; trend := trend_none;
             volatility := 0; totalDeposits := None; deposit_totalAmount := None |}
  | first :: _ =>
      let amounts := map deposit_amount depositHistory in
      let averageAmount := average amounts in
      let firstDeposit := deposit_date first in
      let lastDeposit := deposit_date (List.last depositHistory first) in
      let frequency :=
        (of_nat (length depositHistory) / daysDiff firstDeposit lastDeposit)%float in
      {| deposit_frequency := frequency;
         deposit_averageAmount := averageAmount;
         trend := calculateTrend amounts;
         volatility := calculateVolatility amounts;
         totalDeposits := Some (length depositHistory);
         deposit_totalAmount := Some (sum amounts) |}
  end.

Definition analyzeBetting (betHistory : list BetRecord) : BettingAnalysis :=
  match betHistory with
  | [] => {| bet_frequency := 0; bet_averageAmount := 0; winRate := 0;
             riskProfile := unknown; totalBets := None; bet_totalAmount := None |}
  | first :: _ =>
      let amounts := map bet_amount betHistory in
      let averageAmount := average amounts in
      let wins := length (List.filter (fun b => String.eqb (bet_result b) "win") betHistory) in
      let firstBet := bet_date first in
      let lastBet := bet_date (List.last betHistory first) in
      {| bet_frequency := (of_nat (length betHistory) / daysDiff firstBet lastBet)%float;
         bet_averageAmount := averageAmount;
         winRate := (of_nat wins / of_nat (length betHistory))%float;
         riskProfile := determineRiskProfile amounts betHistory;
         totalBets := Some (length betHistory);
         bet_totalAmount := Some (sum amounts) |}
  end.

Definition analyzeSessions (tzOffset : Z -> Z) (sessionHistory : list SessionRecord)
  : SessionAnalysis :=
  match sessionHistory with
  | [] => {| averageDuration := 0; session_frequency := 0; peakHours := [];
             totalSessions := None |}
  | first :: _ =>
      let durations := map (fun s => or_zero (duration s)) sessionHistory in
      let firstSession := startTime first in
      let lastSession := startTime (List.last sessionHistory first) in
      {| averageDuration := average durations;
         session_frequency :=
           (of_nat (length sessionHistory) / daysDiff firstSession lastSession)%float;
         peakHours := identifyPeakHours tzOffset sessionHistory;
         totalSessions := Some (length sessionHistory) |}
  end.

(** [Date.now()] is read twice; [now1] and [now2] are the two readings. *)
Definition analyzeTemporalPatterns (now1 now2 : Z) (userData : UserData)
  : TemporalAnalysis :=
  let accountAge :=
    ((of_Z now1 - getTime (registrationDate userData)) / msPerDay)%float in
  let daysSinceLastActivity :=
    ((of_Z now2 - getTime (lastActivity userData)) / msPerDay)%float in
  {| accountAge := accountAge;
     daysSinceLastActivity := daysSinceLastActivity;
     activityLevel := calculateActivityLevel accountAge daysSinceLastActivity |}.

(** [if (condition) score += increment] *)
Definition bump (condition : bool) (increment score : number) : number :=
  if condition then (score + increment)%float else score.

Definition calculateBehaviorScore (analyses : Analyses) : number :=
  let score := 50%float in
  let score := bump (gt (deposit_frequency (depositAnalysis analyses)) 0.1) 10 score in
  let score := bump (gt (deposit_averageAmount (depositAnalysis analyses)) 100) 10 score in
  let score := bump (lt (volatility (depositAnalysis analyses)) 0.5) 5 score in
  let score := bump (gt (winRate (bettingAnalysis analyses)) 0.4) 10 score in
  let score := bump (gt (bet_frequency (bettingAnalysis analyses)) 1) 5 score in
  let score :=
    bump (match riskProfile (bettingAnalysis analyses) with
          | conservative => true | _ => false end) 10 score in
  let score := bump (gt (session_frequency (sessionAnalysis analyses)) 0.5) 5 score in
  let score := bump (gt (averageDuration (sessionAnalysis analyses)) 30) 5 score in
  let score :=
    bump (match activityLevel (temporalAnalysis analyses) with
          | activity_high => true | _ => false end) 10 score in
  let score :=
    bump (lt (daysSinceLastActivity (temporalAnalysis analyses)) 7) 5 score in
  Math_min 100 (Math_max 0 score).

Definition determineRiskLevel (score : number) : RiskLevel :=
  if ge score 80 then low
  else if ge score 60 then medium
  else if ge score 40 then high
  else very_high.

(** [if (condition) patterns.push(tag)] *)
Definition push_if {A} (condition : bool) (tag : A) (l : list A) : list A :=
  if condition then l ++ [tag] else l.

Definition identifyPatterns (analyses : Analyses) : list Pattern :=
  let patterns := [] in
  let patterns :=
    push_if (gt (deposit_frequency (depositAnalysis analyses)) 1) frequent_depositor patterns in
  let patterns :=
    push_if (gt (volatility (depositAnalysis analyses)) 1) volatile_deposits patterns in
  let patterns :=
    push_if (match riskProfile (bettingAnalysis analyses) with
             | aggressive => true | _ => false end) high_risk_bettor patterns in
  let patterns :=
    push_if (lt (winRate (bettingAnalysis analyses)) 0.3) frequent_loser patterns in
  push_if (gt (daysSinceLastActivity (temporalAnalysis analyses)) 30) inactive_user patterns.

Definition Pattern_eqb (a b : Pattern) : bool :=
  match a, b with
  | frequent_depositor, frequent_depositor
  | volatile_deposits, volatile_deposits
  | high_risk_bettor, high_risk_bettor
  | frequent_loser, frequent_loser
  | inactive_user, inactive_user => true
  | _, _ => false
  end.

(** [patterns.includes(tag)] *)
Definition includes (patterns : list Pattern) (tag : Pattern) : bool :=
  existsb (Pattern_eqb tag) patterns.

Definition generateRecommendations (score : number) (riskLevel : RiskLevel)
  (patterns : list Pattern) : list string :=
  let recommendations :=
    match riskLevel with
    | low => ["Oferecer baús premium"; "Programa VIP"]
    | medium => ["Baús padrão com bônus"; "Promoções moderadas"]
    | _ => ["Baús básicos"; "Monitoramento aumentado"]
    end in
  let recommendations :=
    push_if (includes patterns inactive_user) "Campanha de reativação" recommendations in
  push_if (includes patterns frequent_depositor) "Programa de fidelidade" recommendations.

Definition analyze (tzOffset : Z -> Z) (now1 now2 : Z) (userData : UserData)
  : BehaviorAnalysis :=
  let analyses :=
    {| depositAnalysis := analyzeDeposits (depositHistory userData);
       bettingAnalysis := analyzeBetting (betHistory userData);
       sessionAnalysis := analyzeSessions tzOffset (sessionHistory userData);
       temporalAnalysis := analyzeTemporalPatterns now1 now2 userData |} in
  let behaviorScore := calculateBehaviorScore analyses in
  let riskLevel := determineRiskLevel behaviorScore in
  let patterns := identifyPatterns analyses in
  {| score := behaviorScore;
     riskLevel := riskLevel;
     patterns := patterns;
     recommendations := generateRecommendations behaviorScore riskLevel patterns;
     details := analyses |}.

(** *** Notions the properties of the analysis are stated with *)

(** [hourCounts[hour] || 0]: the count stored under [hour], 0 when there
    is none. *)
Fixpoint count_of (hour : HourKey) (hourCounts : list (HourKey * nat)) : nat :=
  match hourCounts with
  | [] => 0
  | (k, c) :: rest => if HourKey_eqb hour k then c else count_of hour rest
  end.

(** The hours at which the sessions of a history start. *)
Definition startHours (tzOffset : Z -> Z) (sessionHistory : list SessionRecord)
  : list HourKey :=
  map (fun session => getHours tzOffset (startTime session)) sessionHistory.

(** How many of [hours] are [hour]. *)
Definition occurrences (hours : list HourKey) (hour : HourKey) : nat :=
  length (List.filter (HourKey_eqb hour) hours).

(** [h1] ranks before [h2] among [hours]: it occurs more often, or as
    often and it is the lower hour (not-a-number counting as higher than
    every hour). *)
Definition prefer (hours : list HourKey) (h1 h2 : HourKey) : Prop :=
  occurrences hours h2 < occurrences hours h1
  \/ (occurrences hours h1 = occurrences hours h2 /\ HourKey_ltb h1 h2 = true).

(** What the engine has in [hourCounts] once [hours] have been counted
    on top of [seen]. *)
Record counted (seen : list HourKey) (o : list (HourKey * nat)) : Prop := {
  counted_sorted : StronglySorted HourKey_lt (map fst o);
  counted_positive : Forall (fun e => 0 < e.2) o;
  counted_count : forall k, count_of k o = occurrences seen k
}.

(** Two entries with their true counts, the first ranking before the
    second. *)
Definition ranked (hours : list HourKey) (e1 e2 : HourKey * nat) : Prop :=
  e1.2 = occurrences hours e1.1 /\ e2.2 = occurrences hours e2.1
  /\ prefer hours e1.1 e2.1.

End BehaviorAnalyzer.


(** ** [class ChestOptimizer] *)

Module ChestOptimizer.
Import JS.

Record ChestConfig : Type := {
  successRate : number;
  minValue : number;
  maxValue : number
}.

(** What [configs[chestType]] evaluates to when it is not [undefined]: a
    tier's configuration, or a member inherited from [Object.prototype]
    (a function, or [Object.prototype] itself for "__proto__"), which is
    truthy and has none of the three fields. *)
Inductive ConfigValue : Type :=
| TierConfig (c : ChestConfig)
| InheritedMember.

(** A field read; a missing field reads as [undefined], which every use
    below coerces to [NaN]. *)
Definition field (f : ChestConfig -> number) (config : ConfigValue) : number :=
  match config with
  | TierConfig c => f c
  | InheritedMember => NaN
  end.

(** [history_length] is [userProfile.history.length] as a number, [NaN]
    when [history] is falsy or has no length. *)
Record UserProfile : Type := {
  behaviorScore : number;
  riskLevel : string;
  history_length : number
}.

Record ChestPotential : Type := {
  cp_potential : number;
  cp_expectedValue : number;
  cp_config : ConfigValue
}.

Record Chest : Type := {
  type : string;
  quantity : nat;
  potential : number;
  expectedValue : number
}.

Record Optimization : Type := {
  chests : list Chest;
  opt_expectedValue : number;
  confidence : number;
  reasoning : list string
}.

Definition silver : ChestConfig :=
  {| successRate := 0.7; minValue := 10.0; maxValue := 50.0 |}.
Definition gold : ChestConfig :=
  {| successRate := 0.5; minValue := 25.0; maxValue := 100.0 |}.
Definition platinum : ChestConfig :=
  {| successRate := 0.3; minValue := 50.0; maxValue := 200.0 |}.

(** The object [getGamificationConfigs] returns, as the lookup
    [configs[chestType]]; [None] is [undefined]. *)
Definition getGamificationConfigs (chestType : string) : option ConfigValue :=
  if String.eqb chestType "silver" then Some (TierConfig silver)
  else if String.eqb chestType "gold" then Some (TierConfig gold)
  else if String.eqb chestType "platinum" then Some (TierConfig platinum)
  else if inherited chestType then Some InheritedMember
  else None.

(** [potentials[chestType] = entry] on an object that starts as [{}]: a
    known key keeps its place, a new key goes last, and "__proto__"
    reaches the inherited setter, which creates no own property.  The
    list is the one [Object.entries] returns. *)
Fixpoint entries_set {V} (key : string) (v : V) (entries : list (string * V))
  : list (string * V) :=
  match entries with
  | [] => [(key, v)]
  | (k, w) :: rest =>
      if String.eqb key k then (k, v) :: rest else (k, w) :: entries_set key v rest
  end.

Definition potentials_set (chestType : string) (entry : ChestPotential)
  (potentials : list (string * ChestPotential)) : list (string * ChestPotential) :=
  if String.eqb chestType "__proto__" then potentials
  else entries_set chestType entry potentials.

Definition chestPotential (userProfile : UserProfile) (config : ConfigValue)
  : ChestPotential :=
  let potential := field successRate config in
  let potential :=
    if gt (behaviorScore userProfile) 80 then (potential * 1.2)%float
    else if lt (behaviorScore userProfile) 40 then (potential * 0.8)%float
    else potential in
  let potential :=
    if String.eqb (riskLevel userProfile) "low" then (potential * 1.1)%float
    else if String.eqb (riskLevel userProfile) "very_high" then (potential * 0.7)%float
    else potential in
  {| cp_potential := Math_min 1.0 potential;
     cp_expectedValue :=
       ((field minValue config + field maxValue config) / 2 * potential)%float;
     cp_config := config |}.

Definition calculateChestPotentials (userProfile : UserProfile)
  (availableChests : list string) (configs : string -> option ConfigValue)
  : list (string * ChestPotential) :=
  fold_left
    (fun potentials chestType =>
       match configs chestType with
       | None => potentials
       | Some config =>
           potentials_set chestType (chestPotential userProfile config) potentials
       end)
    availableChests [].

Definition calculateOptimalQuantity (chestData : ChestPotential) : nat :=
  if gt (cp_potential chestData) 0.8 then 3
  else if gt (cp_potential chestData) 0.6 then 2
  else 1.

(** [([,a], [,b]) => b.expectedValue - a.expectedValue] *)
Definition byExpectedValueDesc (x y : string * ChestPotential) : number :=
  (cp_expectedValue (snd y) - cp_expectedValue (snd x))%float.

Definition optimizeDistribution (chestPotentials : list (string * ChestPotential))
  (configs : string -> option ConfigValue) : list Chest :=
  let sortedChests := Array_sort (order_lt0 byExpectedValueDesc) chestPotentials in
  fold_left
    (fun distribution '(chestType, data) =>
       if gt (cp_potential data) 0.3 then
         distribution ++
           [{| type := chestType;
               quantity := calculateOptimalQuantity data;
               potential := cp_potential data;
               expectedValue := cp_expectedValue data |}]
       else distribution)
    sortedChests [].

Definition calculateExpectedValue (distribution : list Chest) : number :=
  fold_left
    (fun total chest => (total + expectedValue chest * of_nat (quantity chest))%float)
    distribution 0%float.

Definition calculateConfidence (userProfile : UserProfile) (distribution : list Chest)
  : number :=
  let confidence := 0.5%float in
  let confidence :=
    if gt (history_length userProfile) 10 then (confidence + 0.2)%float else confidence in
  let confidence :=
    if gt (behaviorScore userProfile) 60 then (confidence + 0.2)%float else confidence in
  let confidence :=
    if 0 <? length distribution then (confidence + 0.1)%float else confidence in
  Math_min 1.0 confidence.

Definition generateReasoning (userProfile : UserProfile) (distribution : list Chest)
  : list string :=
  let reasons := [] in
  let reasons :=
    if gt (behaviorScore userProfile) 80
    then reasons ++ ["Usuário com alto score comportamental"] else reasons in
  let reasons :=
    if String.eqb (riskLevel userProfile) "low"
    then reasons ++ ["Perfil de baixo risco identificado"] else reasons in
  if 1 <? length distribution
  then reasons ++ ["Distribuição diversificada recomendada"] else reasons.

Definition optimize (userProfile : UserProfile) (availableChests : list string)
  : Optimization :=
  let configs := getGamificationConfigs in
  let chestPotentials := calculateChestPotentials userProfile availableChests configs in
  let optimizedDistribution := optimizeDistribution chestPotentials configs in
  {| chests := optimizedDistribution;
     opt_expectedValue := calculateExpectedValue optimizedDistribution;
     confidence := calculateConfidence userProfile optimizedDistribution;
     reasoning := generateReasoning userProfile optimizedDistribution |}.

(** *** Notions the properties of the distribution are stated with *)

(** The entry [optimizeDistribution] pushes for a chest it recommends,
    and the test that it recommends it. *)
Definition toChest (entry : string * ChestPotential) : Chest :=
  {| type := entry.1;
     quantity := calculateOptimalQuantity entry.2;
     potential := cp_potential entry.2;
     expectedValue := cp_expectedValue entry.2 |}.

Definition recommended (entry : string * ChestPotential) : bool :=
  gt (cp_potential entry.2) 0.3.

(** The potential as the specification words it: the success rate,
    multiplied by 1.2 if the score is above 80 and by 0.8 if it is below
    40, then by 1.1 if the risk level is low and by 0.7 if it is very
    high. *)
Definition adjustedRate (userProfile : UserProfile) (rate : number) : number :=
  let byScore :=
    if gt (behaviorScore userProfile) 80 then 1.2%float
    else if lt (behaviorScore userProfile) 40 then 0.8%float
    else 1%float in
  let byRisk :=
    if String.eqb (riskLevel userProfile) "low" then 1.1%float
    else if String.eqb (riskLevel userProfile) "very_high" then 0.7%float
    else 1%float in
  (rate * byScore * byRisk)%float.

(** Every earlier chest is worth at least as much as every later one. *)
Definition byDescendingValue (distribution : list Chest) : Prop :=
  StronglySorted (fun c1 c2 => ge (expectedValue c1) (expectedValue c2) = true)
    distribution.

(** The entries the three tiers get for a profile, and the order of
    their expected values. *)
Definition tierEntries (userProfile : UserProfile) : list (string * ChestPotential) :=
  [ ("silver"%string, chestPotential userProfile (TierConfig silver));
    ("gold"%string, chestPotential userProfile (TierConfig gold));
    ("platinum"%string, chestPotential userProfile (TierConfig platinum)) ].

Definition worthAtLeast (userProfile : UserProfile) (e1 e2 : string * ChestPotential)
  : Prop :=
  e1 ∈ tierEntries userProfile /\ e2 ∈ tierEntries userProfile
  /\ ge (cp_expectedValue e1.2) (cp_expectedValue e2.2) = true.

End ChestOptimizer.


(** ** [class RewardCalculator] *)

Module RewardCalculator.
Import JS.

Record Reward : Type := {
  type : string;
  value : number;
  probability : number
}.

Record UserActivity : Type := {
  recentActivity : number;
  loyaltyLevel : string;
  weeklyVolume : number
}.

Record Rewards : Type := {
  items : list Reward;
  totalValue : number;
  bonusMultiplier : number
}.

Definition silver : list Reward :=
  [ {| type := "coins"; value := 10; probability := 0.8 |};
    {| type := "bonus"; value := 5; probability := 0.6 |};
    {| type := "free_spins"; value := 3; probability := 0.4 |} ].

Definition gold : list Reward :=
  [ {| type := "coins"; value := 25; probability := 0.7 |};
    {| type := "bonus"; value := 15; probability := 0.5 |};
    {| type := "free_spins"; value := 10; probability := 0.3 |};
    {| type := "cashback"; value := 20; probability := 0.2 |} ].

Definition platinum : list Reward :=
  [ {| type := "coins"; value := 50; probability := 0.6 |};
    {| type := "bonus"; value := 30; probability := 0.4 |};
    {| type := "free_spins"; value := 20; probability := 0.3 |};
    {| type := "cashback"; value := 50; probability := 0.2 |};
    {| type := "vip_points"; value := 100; probability := 0.1 |} ].

(** [rewardTables[chestType] || rewardTables.silver].  A member inherited
    from [Object.prototype] is truthy, so it is what [table] becomes, and
    it has no [filter] method: [None]. *)
Definition rewardTable (chestType : string) : option (list Reward) :=
  if String.eqb chestType "silver" then Some silver
  else if String.eqb chestType "gold" then Some gold
  else if String.eqb chestType "platinum" then Some platinum
  else if inherited chestType then None
  else Some silver.

(** [table.filter(reward => Math.random() < reward.probability)];
    [random n] is the [n]-th answer of [Math.random()]. *)
Fixpoint sample (random : nat -> number) (n : nat) (table : list Reward)
  : list Reward :=
  match table with
  | [] => []
  | reward :: rest =>
      if lt (random n) (probability reward)
      then reward :: sample random (S n) rest
      else sample random (S n) rest
  end.

Definition getBaseRewards (random : nat -> number) (chestType : string)
  : Completion (list Reward) :=
  match rewardTable chestType with
  | Some table => Normal (sample random 0 table)
  | None => Throw TypeError
  end.

Definition calculateBonusMultiplier (userActivity : UserActivity) : number :=
  let multiplier := 1.0%float in
  let multiplier :=
    if gt (recentActivity userActivity) 0.8 then (multiplier + 0.2)%float
    else multiplier in
  let multiplier :=
    if String.eqb (loyaltyLevel userActivity) "vip" then (multiplier + 0.3)%float
    else if String.eqb (loyaltyLevel userActivity) "premium" then (multiplier + 0.15)%float
    else multiplier in
  if gt (weeklyVolume userActivity) 1000 then (multiplier + 0.1)%float
  else multiplier.

Definition calculate (random : nat -> number) (userActivity : UserActivity)
  (chestType : string) : Completion Rewards :=
  match getBaseRewards random chestType with
  | Throw e => Throw e
  | Normal baseRewards =>
      let bonusMultiplier := calculateBonusMultiplier userActivity in
      let finalRewards :=
        map (fun reward =>
               {| type := type reward;
                  value := (value reward * bonusMultiplier)%float;
                  probability := probability reward |})
          baseRewards in
      Normal {| items := finalRewards;
                totalValue :=
                  fold_left (fun sum reward => (sum + value reward)%float) finalRewards 0%float;
                bonusMultiplier := bonusMultiplier |}
  end.

End RewardCalculator.


(** ** [class GamificationEngine]: the configuration resolver *)

Module GamificationEngine.
Import JS.

Section Resolver.

(** Configuration values, whatever [JSON.parse] produces them from
    ([None]: the text is not JSON and [JSON.parse] throws). *)
Context {Value : Type} (JSON_parse : string -> option Value).

(** An entry of [this.localCache]. *)
Record CacheEntry : Type := {
  value : Value;
  timestamp : Z
}.

(** [response.data.data]: the configuration the service answers with.
    [get_typed_value] is absent (falsy), or callable, or truthy and not
    callable, in which case calling it throws. *)
Inductive Getter : Type :=
| NoGetter
| GetterReturns (v : Value)
| GetterThrows.

Record Config : Type := {
  get_typed_value : Getter;
  config_value : Value
}.

(** What [axios.get] does: it rejects (service unreachable, no answer
    within the timeout, a status outside 2xx), or it resolves with a body
    whose [success] is truthy or not and whose [data] may be missing. *)
Inductive Response : Type :=
| Rejects
| Resolves (success : bool) (data : option Config).

(** The engine's own state and the distributed cache it talks to.
    [reads] counts the readings of [Date.now()] taken so far. *)
Record World : Type := {
  localCache : gmap string CacheEntry;
  redisClient : bool;
  redis : gmap string string;
  redis_up : bool;
  reads : nat
}.

(** The collaborators: the clock and the configuration service. *)
Context (clock : nat -> Z) (configService : string -> Response).

Definition cacheTtl : Z := 300000.

(** Computations that read and write the world and may throw. *)
Definition M (A : Type) : Type := World -> Completion A * World.

Definition ret {A} (a : A) : M A := fun w => (Normal a, w).

Definition throw {A} (e : Error) : M A := fun w => (Throw e, w).

Definition bind {A B} (m : M A) (k : A -> M B) : M B :=
  fun w =>
    match m w with
    | (Normal a, w') => k a w'
    | (Throw e, w') => (Throw e, w')
    end.

(** [try { body } catch (error) { handler }] *)
Definition try_catch {A} (body : M A) (handler : Error -> M A) : M A :=
  fun w =>
    match body w with
    | (Normal a, w') => (Normal a, w')
    | (Throw e, w') => handler e w'
    end.

Notation "'let*' x ':=' m 'in' k" := (bind m (fun x => k))
  (at level 10, x name, m at level 100, k at level 200).

(** [Date.now()] *)
Definition Date_now : M Z :=
  fun w =>
    (Normal (clock (reads w)),
     {| localCache := localCache w; redisClient := redisClient w; redis := redis w;
        redis_up := redis_up w; reads := S (reads w) |}).

(** [this.localCache.get(key)] *)
Definition localCache_get (key : string) : M (option CacheEntry) :=
  fun w => (Normal (localCache w !! key), w).

(** [this.localCache.set(key, entry)] *)
Definition localCache_set (key : string) (entry : CacheEntry) : M unit :=
  fun w =>
    (Normal tt,
     {| localCache := <[key := entry]> (localCache w); redisClient := redisClient w;
        redis := redis w; redis_up := redis_up w; reads := reads w |}).

(** [this.redisClient.get(name)]: the stored text or [null]; the command
    is rejected when the connection is down. *)
Definition redisClient_get (name : string) : M (option string) :=
  fun w => if redis_up w then (Normal (redis w !! name), w) else (Throw RequestError, w).

(** [axios.get(`${this.configServiceUrl}/api/v1/configurations/${key}`)] *)
Definition axios_get (key : string) : M (bool * option Config) :=
  match configService key with
  | Rejects => throw RequestError
  | Resolves success data => ret (success, data)
  end.

(** A text is truthy unless it is empty. *)
Definition truthy (s : string) : bool := negb (String.eqb s "").

(** The body of [getConfig] from the distributed cache on. *)
Definition fromService (key : string) : M (option Value) :=
  let* response := axios_get key in
  let '(success, data) := response in
  if success then
    match data with
    | None => throw TypeError
    | Some config =>
        let* value :=
          match get_typed_value config with
          | NoGetter => ret (config_value config)
          | GetterReturns v => ret v
          | GetterThrows => throw TypeError
          end in
        let* now := Date_now in
        let* _ := localCache_set key {| value := value; timestamp := now |} in
        ret (Some value)
    end
  else ret None.

Definition fromRedis (key : string) : M (option Value) :=
  fun w =>
    (if redisClient w then
       let* redisValue := redisClient_get (String.append "config_cache:" key) in
       match redisValue with
       | Some text =>
           if truthy text then
             match JSON_parse text with
             | None => throw SyntaxError
             | Some value =>
                 let* now := Date_now in
                 let* _ := localCache_set key {| value := value; timestamp := now |} in
                 ret (Some value)
             end
           else fromService key
       | None => fromService key
       end
     else fromService key) w.

(** [async getConfig(key)]; [None] is [null]. *)
Definition getConfig (key : string) : M (option Value) :=
  try_catch
    (let* cached := localCache_get key in
     match cached with
     | Some entry =>
         let* now := Date_now in
         if (now - timestamp entry <? cacheTtl)%Z then ret (Some (value entry))
         else fromRedis key
     | None => fromRedis key
     end)
    (fun error => ret None).

(** The value a configuration yields: what the getter returns when there
    is a getter, the [value] field otherwise; [None] when the call
    throws. *)
Definition typed_value (config : Config) : option Value :=
  match get_typed_value config with
  | NoGetter => Some (config_value config)
  | GetterReturns v => Some v
  | GetterThrows => None
  end.

(** The service does not supply the key: the request is rejected, or the
    answer does not report success. *)
Definition origin_absent (response : Response) : bool :=
  match response with
  | Rejects => true
  | Resolves success _ => negb success
  end.

(** The key is not served by the in-process cache at the next reading of
    the clock. *)
Definition local_miss (key : string) (w : World) : bool :=
  match localCache w !! key with
  | Some entry => negb (clock (reads w) - timestamp entry <? cacheTtl)%Z
  | None => true
  end.

(** The key is not served by the distributed cache: there is no client,
    or the cache answers and holds nothing (or the empty text) under the
    namespaced key. *)
Definition redis_miss (key : string) (w : World) : bool :=
  negb (redisClient w)
  || (redis_up w &&
      match redis w !! (String.append "config_cache:" key) with
      | Some text => negb (truthy text)
      | None => true
      end).

(** The world after [Date.now()] was read and the clock's answer stored
    with [value] under [key]. *)
Definition stored (key : string) (value : Value) (w : World) : World :=
  {| localCache := <[key := {| value := value; timestamp := clock (reads w) |}]> (localCache w);
     redisClient := redisClient w;
     redis := redis w;
     redis_up := redis_up w;
     reads := S (reads w) |}.

(** The world after a reading of the clock. *)
Definition ticked (w : World) : World :=
  {| localCache := localCache w; redisClient := redisClient w; redis := redis w;
     redis_up := redis_up w; reads := S (reads w) |}.

(** On a miss in the in-process cache the resolver goes on to the
    distributed cache, after one reading of the clock if an expired entry
    was found. *)
Definition afterLocalMiss (key : string) (w : World) : World :=
  match localCache w !! key with
  | Some _ => ticked w
  | None => w
  end.

End Resolver.

Arguments CacheEntry : clear implicits.
Arguments Getter : clear implicits.
Arguments Config : clear implicits.
Arguments Response : clear implicits.
Arguments World : clear implicits.

End GamificationEngine.


(** ** Concrete inputs *)

Module Scenarios.
Import JS.

(** The process runs in UTC. *)
Definition utc (t : Z) : Z := 0%Z.

(** A user with no deposits, no bets and no sessions. *)
Definition emptyHistory (registrationDate lastActivity : Date)
  : BehaviorAnalyzer.UserData :=
  {| BehaviorAnalyzer.depositHistory := [];
     BehaviorAnalyzer.betHistory := [];
     BehaviorAnalyzer.sessionHistory := [];
     BehaviorAnalyzer.registrationDate := registrationDate;
     BehaviorAnalyzer.lastActivity := lastActivity |}.

(** The user "VIP_USER_001" of the service's test suite: deposits of 500,
    300 and 800 on 2025-06-01, -05 and -10; bets of 50 (won), 100 (lost)
    and 75 (won) on 2025-06-01, -02 and -03; sessions of 120 and 90
    minutes started 2025-06-01T20:00Z and 2025-06-02T21:00Z; registered
    2025-01-01T00:00Z; last active 2025-06-14T22:00Z. *)
Definition vipUser : BehaviorAnalyzer.UserData :=
  {| BehaviorAnalyzer.depositHistory :=
       [ BehaviorAnalyzer.Build_DepositRecord (DateAt 1748736000000) 500;
         BehaviorAnalyzer.Build_DepositRecord (DateAt 1749081600000) 300;
         BehaviorAnalyzer.Build_DepositRecord (DateAt 1749513600000) 800 ];
     BehaviorAnalyzer.betHistory :=
       [ BehaviorAnalyzer.Build_BetRecord (DateAt 1748736000000) 50 "win";
         BehaviorAnalyzer.Build_BetRecord (DateAt 1748822400000) 100 "loss";
         BehaviorAnalyzer.Build_BetRecord (DateAt 1748908800000) 75 "win" ];
     BehaviorAnalyzer.sessionHistory :=
       [ BehaviorAnalyzer.Build_SessionRecord (DateAt 1748808000000) 120;
         BehaviorAnalyzer.Build_SessionRecord (DateAt 1748898000000) 90 ];
     BehaviorAnalyzer.registrationDate := DateAt 1735689600000;
     BehaviorAnalyzer.lastActivity := DateAt 1749938400000 |}.

(** 2025-06-15T10:00Z, twelve hours after [vipUser] was last active. *)
Definition vipNow : Z := 1749981600000.

(** One day, in milliseconds. *)
Definition day : Z := 86400000.

(** The activity signals of a loyal, recently active, high-volume user. *)
Definition vipSignals : RewardCalculator.UserActivity :=
  {| RewardCalculator.recentActivity := 0.9;
     RewardCalculator.loyaltyLevel := "vip";
     RewardCalculator.weeklyVolume := 1500 |}.

(** A user of middling score and risk, and a request that names an
    inherited member of [Object.prototype] among the chest types. *)
Definition middlingProfile : ChestOptimizer.UserProfile :=
  {| ChestOptimizer.behaviorScore := 50;
     ChestOptimizer.riskLevel := "medium";
     ChestOptimizer.history_length := NaN |}.

Definition chestsWithInheritedName : list string := ["silver"; "toString"; "gold"].

(** An engine that has just connected to an empty distributed cache. *)
Definition freshWorld : GamificationEngine.World string :=
  {| GamificationEngine.localCache := ∅;
     GamificationEngine.redisClient := true;
     GamificationEngine.redis := ∅;
     GamificationEngine.redis_up := true;
     GamificationEngine.reads := 0 |}.

(** Configuration values are texts, and every text parses to itself. *)
Definition parseText (text : string) : option string := Some text.

(** A clock stopped at 2025-06-15T10:00Z. *)
Definition stoppedClock (n : nat) : Z := vipNow.

(** A configuration service that knows every key, with the value 0.7. *)
Definition servingService (key : string) : GamificationEngine.Response string :=
  GamificationEngine.Resolves true
    (Some {| GamificationEngine.get_typed_value := GamificationEngine.NoGetter;
             GamificationEngine.config_value := "0.7" |}).

(** A configuration service that cannot be reached. *)
Definition unreachableService (key : string) : GamificationEngine.Response string :=
  GamificationEngine.Rejects.

End Scenarios.


(** ** [class GamificationEngine]: the operations around the components *)

Module Engine.
Import JS.

(** *** [getMetrics] *)

Section Metrics.
Context {Value : Type}.

Record Metrics : Type := {
  cache_hits : nat;
  redis_connected : bool;
  behavior_analyzer_status : string;
  chest_optimizer_status : string;
  reward_calculator_status : string
}.

(** What [getMetrics] returns: the metrics, or [{ error: error.message }]. *)
Inductive MetricsReport : Type :=
| MetricsOf (metrics : Metrics)
| MetricsError (e : Error).

(** [this.redisClient.ping()]: the server answers "PONG"; the command is
    rejected when the connection is down. *)
Definition redisClient_ping : GamificationEngine.M (Value := Value) string :=
  fun w =>
    if GamificationEngine.redis_up w then (Normal "PONG"%string, w)
    else (Throw RequestError, w).

Definition getMetrics (w : GamificationEngine.World Value)
  : MetricsReport * GamificationEngine.World Value :=
  let cache_hits := size (GamificationEngine.localCache w) in
  match
    (if GamificationEngine.redisClient w then
       GamificationEngine.bind redisClient_ping
         (fun reply => GamificationEngine.ret (String.eqb reply "PONG"))
     else GamificationEngine.ret false) w
  with
  | (Normal redis_connected, w') =>
      (MetricsOf {| cache_hits := cache_hits;
                    redis_connected := redis_connected;
                    behavior_analyzer_status := "active";
                    chest_optimizer_status := "active";
                    reward_calculator_status := "active" |}, w')
  | (Throw error, w') => (MetricsError error, w')
  end.

(** The [cache_hits] that [getMetrics] reports, if it reports metrics. *)
Definition reported_cache_hits (w : GamificationEngine.World Value) : option nat :=
  match (getMetrics w).1 with
  | MetricsOf metrics => Some (cache_hits metrics)
  | MetricsError _ => None
  end.

End Metrics.

Arguments Metrics : clear implicits.
Arguments MetricsReport : clear implicits.

(** *** The three operations the service exposes

    [userId] is the field of that name of the first argument; a
    [timestamp] is kept as the time value whose ISO rendering the engine
    returns; [now] arguments are readings of the clock, in the order they
    are taken. *)

(** The risk level as the text the engine passes around. *)
Definition riskLevel_name (riskLevel : BehaviorAnalyzer.RiskLevel) : string :=
  match riskLevel with
  | BehaviorAnalyzer.low => "low"
  | BehaviorAnalyzer.medium => "medium"
  | BehaviorAnalyzer.high => "high"
  | BehaviorAnalyzer.very_high => "very_high"
  end.

Record BehaviorReport : Type := {
  br_userId : string;
  behaviorScore : number;
  riskLevel : BehaviorAnalyzer.RiskLevel;
  patterns : list BehaviorAnalyzer.Pattern;
  recommendations : list string;
  br_timestamp : Z
}.

Definition analyzeUserBehavior (tzOffset : Z -> Z) (now1 now2 now3 : Z)
  (userId : string) (userData : BehaviorAnalyzer.UserData) : BehaviorReport :=
  let analysis := BehaviorAnalyzer.analyze tzOffset now1 now2 userData in
  {| br_userId := userId;
     behaviorScore := BehaviorAnalyzer.score analysis;
     riskLevel := BehaviorAnalyzer.riskLevel analysis;
     patterns := BehaviorAnalyzer.patterns analysis;
     recommendations := BehaviorAnalyzer.recommendations analysis;
     br_timestamp := now3 |}.

Record ChestReport : Type := {
  cr_userId : string;
  recommendedChests : list ChestOptimizer.Chest;
  expectedValue : number;
  confidence : number;
  reasoning : list string;
  cr_timestamp : Z
}.

Definition optimizeChestDistribution (now : Z) (userId : string)
  (userProfile : ChestOptimizer.UserProfile) (availableChests : list string)
  : ChestReport :=
  let optimization := ChestOptimizer.optimize userProfile availableChests in
  {| cr_userId := userId;
     recommendedChests := ChestOptimizer.chests optimization;
     expectedValue := ChestOptimizer.opt_expectedValue optimization;
     confidence := ChestOptimizer.confidence optimization;
     reasoning := ChestOptimizer.reasoning optimization;
     cr_timestamp := now |}.

Record RewardReport : Type := {
  rr_userId : string;
  chestType : string;
  rewards : list RewardCalculator.Reward;
  totalValue : number;
  bonusMultiplier : number;
  rr_timestamp : Z
}.

(** The error [calculate] throws is logged and thrown again. *)
Definition calculateRewards (random : nat -> number) (now : Z) (userId : string)
  (userActivity : RewardCalculator.UserActivity) (chestType : string)
  : Completion RewardReport :=
  match RewardCalculator.calculate random userActivity chestType with
  | Normal rewards =>
      Normal {| rr_userId := userId;
                chestType := chestType;
                rewards := RewardCalculator.items rewards;
                totalValue := RewardCalculator.totalValue rewards;
                bonusMultiplier := RewardCalculator.bonusMultiplier rewards;
                rr_timestamp := now |}
  | Throw error => Throw error
  end.

(** *** One scenario of the test suite

    The body of the loop of the test-suite endpoint, for a scenario of
    any name and user data. *)

Record Summary : Type := {
  summary_behaviorScore : option number;
  summary_riskLevel : BehaviorAnalyzer.RiskLevel;
  summary_recommendedChests : nat;
  summary_expectedValue : number;
  totalRewardValue : number
}.

Record ScenarioRun : Type := {
  scenario : string;
  behaviorAnalysis : BehaviorReport;
  chestOptimization : ChestReport;
  scenario_rewards : RewardReport;
  summary : Summary
}.

Inductive ScenarioResult : Type :=
| ScenarioDone (run : ScenarioRun)
| ScenarioFailed (name : string) (error : Error).

(** [behaviorAnalysis.score]: the report [analyzeUserBehavior] returns
    names the score [behaviorScore] and has no field [score], so that
    the read yields [undefined]. *)
Definition report_score (behaviorAnalysis : BehaviorReport) : option number := None.

(** [undefined] where the optimizer compares numbers. *)
Definition number_of (field : option number) : number :=
  match field with
  | Some x => x
  | None => NaN
  end.

(** [history: scenario.userData] is an object without a [length]. *)
Definition runScenario (tzOffset : Z -> Z) (clock : nat -> Z) (random : nat -> number)
  (name userId : string) (userData : BehaviorAnalyzer.UserData) : ScenarioResult :=
  let behaviorAnalysis :=
    analyzeUserBehavior tzOffset (clock 0) (clock 1) (clock 2) userId userData in
  let userProfile :=
    {| ChestOptimizer.behaviorScore := number_of (report_score behaviorAnalysis);
       ChestOptimizer.riskLevel := riskLevel_name (riskLevel behaviorAnalysis);
       ChestOptimizer.history_length := NaN |} in
  let chestOptimization :=
    optimizeChestDistribution (clock 3) userId userProfile
      ["silver"; "gold"; "platinum"]%string in
  let userActivity :=
    {| RewardCalculator.recentActivity := 0.8;
       RewardCalculator.loyaltyLevel :=
         match riskLevel behaviorAnalysis with
         | BehaviorAnalyzer.low => "vip"
         | _ => "standard"
         end;
       RewardCalculator.weeklyVolume := 500 |} in
  match calculateRewards random (clock 4) userId userActivity "gold" with
  | Throw error => ScenarioFailed name error
  | Normal rewards =>
      ScenarioDone
        {| scenario := name;
           behaviorAnalysis := behaviorAnalysis;
           chestOptimization := chestOptimization;
           scenario_rewards := rewards;
           summary :=
             {| summary_behaviorScore := report_score behaviorAnalysis;
                summary_riskLevel := riskLevel behaviorAnalysis;
                summary_recommendedChests := length (recommendedChests chestOptimization);
                summary_expectedValue := expectedValue chestOptimization;
                totalRewardValue := totalValue rewards |} |}
  end.

(** *** Notions the properties of the engine are stated with *)

(** The position of a risk level, from the safest to the riskiest. *)
Definition riskRank (riskLevel : BehaviorAnalyzer.RiskLevel) : nat :=
  match riskLevel with
  | BehaviorAnalyzer.low => 0
  | BehaviorAnalyzer.medium => 1
  | BehaviorAnalyzer.high => 2
  | BehaviorAnalyzer.very_high => 3
  end.

(** The position of an activity level, from the most to the least
    active. *)
Definition activityRank (level : BehaviorAnalyzer.ActivityLevel) : nat :=
  match level with
  | BehaviorAnalyzer.activity_very_high => 0
  | BehaviorAnalyzer.activity_high => 1
  | BehaviorAnalyzer.activity_medium => 2
  | BehaviorAnalyzer.activity_low => 3
  end.

(** The scores the analysis can give. *)
Definition possibleScores : list number :=
  [50; 55; 60; 65; 70; 75; 80; 85; 90; 95; 100]%float.


(** The chest type is one the engine has a table or a configuration
    for. *)
Definition knownTier (chestType : string) : bool :=
  String.eqb chestType "silver" || String.eqb chestType "gold"
  || String.eqb chestType "platinum".

End Engine.


(** ** More concrete inputs *)

Module EngineScenarios.
Import JS Scenarios.

(** An engine that cached "0.7" for "chest_success_rate" one second
    before 2025-06-15T10:00Z. *)
Definition warmWorld : GamificationEngine.World string :=
  {| GamificationEngine.localCache :=
       {[ "chest_success_rate"%string :=
            {| GamificationEngine.value := "0.7"%string;
               GamificationEngine.timestamp := vipNow - 1000 |} ]};
     GamificationEngine.redisClient := true;
     GamificationEngine.redis := ∅;
     GamificationEngine.redis_up := true;
     GamificationEngine.reads := 0 |}.

(** An engine with an empty in-process cache whose distributed cache
    holds "0.5" for "chest_success_rate". *)
Definition redisWorld : GamificationEngine.World string :=
  {| GamificationEngine.localCache := ∅;
     GamificationEngine.redisClient := true;
     GamificationEngine.redis := {[ "config_cache:chest_success_rate"%string := "0.5"%string ]};
     GamificationEngine.redis_up := true;
     GamificationEngine.reads := 0 |}.

(** An engine whose connection to the distributed cache is down. *)
Definition downWorld : GamificationEngine.World string :=
  {| GamificationEngine.localCache := ∅;
     GamificationEngine.redisClient := true;
     GamificationEngine.redis := ∅;
     GamificationEngine.redis_up := false;
     GamificationEngine.reads := 0 |}.

(** A clock that advances by one second from reading to reading. *)
Definition tickingClock (n : nat) : Z := vipNow + Z.of_nat n * 1000.


End EngineScenarios.


(** ** The reward endpoint of the server *)

Module Server.
Import JS.

(** What a handler sends: [res.json(body)] answers with status 200,
    [res.status(code).json(body)] with the status given. *)
Inductive Body (A : Type) : Type :=
| Success (message : string) (data : A)
| ClientError (message : string)
| InternalError (message : string) (error : Error) (timestamp : Z).
Arguments Success {A} message data.
Arguments ClientError {A} message.
Arguments InternalError {A} message error timestamp.

Record HttpResponse (A : Type) : Type := {
  statusCode : nat;
  body : Body A
}.
Arguments statusCode {A} _.
Arguments body {A} _.

(** [!userActivity.userId]: an absent or empty id is falsy. *)
Definition falsy (userId : option string) : bool :=
  match userId with
  | Some text => String.eqb text ""
  | None => true
  end.

(** The handler of [POST /api/v1/gamification-service/calculate-rewards].
    The body's [userActivity], when present, comes with its [userId];
    an absent [chestType] is "silver"; [clock 0] is the one reading of
    the clock the request causes. *)
Definition calculateRewardsHandler (random : nat -> number) (clock : nat -> Z)
  (userActivity : option (option string * RewardCalculator.UserActivity))
  (chestType : option string) : HttpResponse Engine.RewardReport :=
  let chestType := match chestType with Some t => t | None => "silver"%string end in
  match userActivity with
  | None =>
      {| statusCode := 400;
         body := ClientError "userActivity com userId é obrigatório" |}
  | Some (userId, activity) =>
      if falsy userId then
        {| statusCode := 400;
           body := ClientError "userActivity com userId é obrigatório" |}
      else
        match
          Engine.calculateRewards random (clock 0)
            (match userId with Some text => text | None => ""%string end)
            activity chestType
        with
        | Normal rewards =>
            {| statusCode := 200;
               body := Success "Cálculo de recompensas executado com sucesso" rewards |}
        | Throw error =>
            {| statusCode := 500;
               body := InternalError "Erro interno no cálculo de recompensas" error
                         (clock 0) |}
        end
  end.

End Server.


(** * Properties *)

(** ** Comparisons of numbers against the engine's thresholds *)

Section Thresholds.
Import JS.

Lemma number_1 : Prim2SF 1 = S754_finite false 4503599627370496 (-52).
Proof. vm_compute. reflexivity. Qed.

Lemma number_7 : Prim2SF 7 = S754_finite false 7881299347898368 (-50).
Proof. vm_compute. reflexivity. Qed.

Lemma number_30 : Prim2SF 30 = S754_finite false 8444249301319680 (-48).
Proof. vm_compute. reflexivity. Qed.

Lemma lt_1_not_gt_30 (d : number) : lt d 1 = true -> gt d 30 = false.
Proof.
  unfold lt, gt. rewrite !ltb_spec, number_1, number_30. unfold SFltb, SFcompare.
  destruct (Prim2SF d) as [s | s | | s m e]; try destruct s;
    cbv beta iota; try congruence; try reflexivity.
  destruct (Z.compare_spec e (-52)) as [-> | He | He]; intros H.
  - reflexivity.
  - destruct (Z.compare_spec (-48) e) as [E | E | E]; try reflexivity; lia.
  - discriminate.
Qed.

Lemma lt_1_lt_7 (d : number) : lt d 1 = true -> lt d 7 = true.
Proof.
  unfold lt. rewrite !ltb_spec, number_1, number_7. unfold SFltb, SFcompare.
  destruct (Prim2SF d) as [s | s | | s m e]; try destruct s;
    cbv beta iota; try congruence; try reflexivity.
  destruct (Z.compare_spec e (-52)) as [-> | He | He]; intros H.
  - reflexivity.
  - destruct (Z.compare_spec e (-50)) as [E | E | E]; try reflexivity; lia.
  - discriminate.
Qed.

(** Two numbers that a computable test tells apart are different. *)
Lemma number_neq (a b : number) : PrimFloat.eqb a b = false -> PrimFloat.eqb b b = true -> a <> b.
Proof. intros Hab Hbb ->. congruence. Qed.

End Thresholds.


(** ** The behavior score *)

Section BehaviorScore.
Import JS BehaviorAnalyzer Scenarios.

(** Splits on every condition that gates an increment of the score. *)
Ltac split_conditions :=
  repeat match goal with
         | |- context [bump ?c _ _] =>
             lazymatch c with
             | true => fail
             | false => fail
             | _ => let b := fresh "b" in generalize c; intros b; destruct b
             end
         end.

Lemma calculateBehaviorScore_range (analyses : Analyses) :
  ge (calculateBehaviorScore analyses) 0 = true
  /\ ge 100 (calculateBehaviorScore analyses) = true.
Proof.
  unfold calculateBehaviorScore.
  split_conditions; vm_compute; split; reflexivity.
Qed.

(** C5: whatever the history, the registration and last-activity dates,
    the time zone and the readings of the clock, the score [analyze]
    returns is at least 0 and at most 100. *)
Theorem C5_score_within_0_100 (tzOffset : Z -> Z) (now1 now2 : Z) (userData : UserData) :
  ge (score (analyze tzOffset now1 now2 userData)) 0 = true
  /\ ge 100 (score (analyze tzOffset now1 now2 userData)) = true.
Proof. apply calculateBehaviorScore_range. Qed.

(** Evaluates the conditions that do not depend on the clock. *)
Ltac eval_conditions :=
  repeat match goal with
         | |- context [bump ?c _ _] =>
             lazymatch c with
             | true => fail
             | false => fail
             | _ => let v := eval vm_compute in c in
                    lazymatch v with
                    | true => change c with true
                    | false => change c with false
                    end
             end
         | |- context [push_if ?c _ _] =>
             lazymatch c with
             | true => fail
             | false => fail
             | _ => let v := eval vm_compute in c in
                    lazymatch v with
                    | true => change c with true
                    | false => change c with false
                    end
             end
         end.

(** The score and the patterns of a user without deposits, bets or
    sessions, as a function of the days since the last activity. *)
Lemma emptyHistory_analysis (tzOffset : Z -> Z) (now1 now2 : Z)
  (registrationDate lastActivity : Date) :
  let r := analyze tzOffset now1 now2 (emptyHistory registrationDate lastActivity) in
  let d := daysSinceLastActivity (temporalAnalysis (details r)) in
  (score r, riskLevel r)
  = (if lt d 7 then if lt d 1 then (60%float, medium) else (70%float, medium)
     else (55%float, high))
  /\ patterns r = frequent_loser :: (if gt d 30 then [inactive_user] else []).
Proof.
  intros r d. subst r d.
  unfold analyze, analyzeTemporalPatterns.
  cbn [score riskLevel patterns details temporalAnalysis daysSinceLastActivity].
  generalize
    ((of_Z now2 - getTime (BehaviorAnalyzer.lastActivity
                             (emptyHistory registrationDate lastActivity))) / msPerDay)%float.
  intros d.
  unfold calculateBehaviorScore, identifyPatterns, calculateActivityLevel.
  cbn [depositAnalysis bettingAnalysis sessionAnalysis temporalAnalysis
       daysSinceLastActivity activityLevel].
  destruct (lt d 1), (lt d 7), (lt d 30), (gt d 30);
    vm_compute; split; reflexivity.
Qed.

(** C1 (as the engine behaves): a user without deposits, bets or sessions
    is never scored 50.  The default volatility 0 earns 5 points, so the
    score is 55, raised to 60 when the last activity is less than a day
    old and to 70 when it is between one and seven days old; the risk
    level is [high] at 55 and [medium] at 60 and 70; and the default win
    rate 0 tags the user [frequent_loser], with [inactive_user] added
    when the last activity is more than 30 days old. *)
Theorem C1_emptyHistory_analysis (tzOffset : Z -> Z) (now1 now2 : Z)
  (registrationDate lastActivity : Date) :
  let r := analyze tzOffset now1 now2 (emptyHistory registrationDate lastActivity) in
  let d := daysSinceLastActivity (temporalAnalysis (details r)) in
  ((score r, riskLevel r)
   = (if lt d 7 then if lt d 1 then (60%float, medium) else (70%float, medium)
      else (55%float, high))
   /\ patterns r = frequent_loser :: (if gt d 30 then [inactive_user] else []))
  /\ score r <> 50%float /\ patterns r <> [].
Proof.
  intros r d.
  destruct (emptyHistory_analysis tzOffset now1 now2 registrationDate lastActivity)
    as [Hs Hp].
  fold r in Hs, Hp. fold d in Hs, Hp.
  split; [split; assumption |]. split.
  - assert (E : score r = fst (score r, riskLevel r)) by reflexivity.
    rewrite E, Hs.
    destruct (lt d 7); [destruct (lt d 1) |];
      apply number_neq; vm_compute; reflexivity.
  - rewrite Hp. discriminate.
Qed.

(** C1 (as stated) fails: a user without deposits, bets or sessions,
    registered 2025-01-01 and last active 2025-06-01, analysed on
    2025-06-15, is scored 55 at risk level [high] with the pattern
    [frequent_loser]. *)
Lemma C1_emptyHistory_counterexample :
  let r := analyze utc vipNow vipNow
             (emptyHistory (DateAt 1735689600000) (DateAt 1748736000000)) in
  score r = 55%float /\ riskLevel r = high /\ patterns r = [frequent_loser]
  /\ ~ (score r = 50%float /\ riskLevel r = medium /\ patterns r = []).
Proof.
  intros r. repeat split; try (vm_compute; reflexivity).
  intros [_ [H _]]. vm_compute in H. discriminate.
Qed.

(** C6: the user "VIP_USER_001" of the test suite (three deposits
    averaging 533.3, three bets of which two are won, two sessions
    averaging 105 minutes), analysed at any instant at which the last
    activity is less than one day old, is scored at least 80 (the score
    is 100), has risk level [low], and is not tagged [inactive_user]. *)
Theorem C6_vipUser_analysis (tzOffset : Z -> Z) (now1 now2 : Z) :
  let r := analyze tzOffset now1 now2 vipUser in
  lt (daysSinceLastActivity (temporalAnalysis (details r))) 1 = true ->
  ge (score r) 80 = true
  /\ riskLevel r = low
  /\ includes (patterns r) inactive_user = false
  /\ score r = 100%float.
Proof.
  intros r. subst r.
  unfold analyze, analyzeTemporalPatterns.
  cbn [score riskLevel patterns details temporalAnalysis daysSinceLastActivity].
  generalize
    ((of_Z now2 - getTime (BehaviorAnalyzer.lastActivity vipUser)) / msPerDay)%float.
  intros d Hd.
  pose proof (lt_1_not_gt_30 d Hd) as H30.
  pose proof (lt_1_lt_7 d Hd) as H7.
  unfold calculateBehaviorScore, identifyPatterns, calculateActivityLevel.
  cbn [depositAnalysis bettingAnalysis sessionAnalysis temporalAnalysis
       daysSinceLastActivity activityLevel].
  rewrite Hd, H30, H7.
  eval_conditions.
  vm_compute. repeat split; reflexivity.
Qed.

(** C6 holds at 2025-06-15T10:00Z, twelve hours after the user was last
    active and five and a half months after the registration. *)
Lemma C6_vipUser_witness :
  let r := analyze utc vipNow vipNow vipUser in
  ge (score r) 80 = true
  /\ riskLevel r = low
  /\ includes (patterns r) inactive_user = false
  /\ score r = 100%float.
Proof.
  apply (C6_vipUser_analysis utc vipNow vipNow). vm_compute. reflexivity.
Defined.

(** C10: the score is not monotone in the recency of the last activity.
    Of two users without deposits, bets or sessions, registered on the
    same day and analysed at the same instant, the one last active twelve
    hours ago (activity level [very_high]) is scored 60 and the one last
    active three days ago (activity level [high]) is scored 70: the more
    recently active user gets exactly 10 points less. *)
Theorem C10_score_not_monotone_in_recency :
  exists (registrationDate recently earlier : Date) (now : Z),
    let r1 := analyze utc now now (emptyHistory registrationDate recently) in
    let r2 := analyze utc now now (emptyHistory registrationDate earlier) in
    let d1 := daysSinceLastActivity (temporalAnalysis (details r1)) in
    let d2 := daysSinceLastActivity (temporalAnalysis (details r2)) in
    lt d1 1 = true /\ activityLevel (temporalAnalysis (details r1)) = activity_very_high
    /\ ge d2 1 = true /\ lt d2 7 = true
    /\ activityLevel (temporalAnalysis (details r2)) = activity_high
    /\ score r1 = 60%float /\ score r2 = 70%float
    /\ (score r1 + 10)%float = score r2.
Proof.
  exists (DateAt 1735689600000), (DateAt (vipNow - day / 2)), (DateAt (vipNow - 3 * day)),
    vipNow.
  vm_compute. repeat split; reflexivity.
Qed.

(** The activity-level increment is granted to [activity_high] alone:
    whatever else the analyses say, [activity_very_high] is scored like
    [activity_medium]. *)
Lemma very_high_activity_earns_nothing
  (da : DepositAnalysis) (ba : BettingAnalysis) (sa : SessionAnalysis)
  (age d : number) :
  calculateBehaviorScore
    {| depositAnalysis := da; bettingAnalysis := ba; sessionAnalysis := sa;
       temporalAnalysis := {| accountAge := age; daysSinceLastActivity := d;
                              activityLevel := activity_very_high |} |}
  = calculateBehaviorScore
      {| depositAnalysis := da; bettingAnalysis := ba; sessionAnalysis := sa;
         temporalAnalysis := {| accountAge := age; daysSinceLastActivity := d;
                                activityLevel := activity_medium |} |}.
Proof. reflexivity. Qed.

End BehaviorScore.


(** ** The reward multiplier *)

Section RewardMultiplier.
Import JS RewardCalculator Scenarios.

Lemma vipSignals_multiplier : calculateBonusMultiplier vipSignals = 1.6%float.
Proof. vm_compute. reflexivity. Qed.

(** C8: for the signals [{recentActivity: 0.9, loyaltyLevel: 'vip',
    weeklyVolume: 1500}] the multiplier is exactly 1.6, the sum
    1.0 + 0.2 + 0.3 + 0.1 as the engine computes it; and whatever the
    chest type and the random draws, [calculate] returns that multiplier
    when it returns (it throws only for a chest type that names a member
    inherited from [Object.prototype]). *)
Theorem C8_vipSignals_bonusMultiplier :
  calculateBonusMultiplier vipSignals = 1.6%float
  /\ (1.0 + 0.2 + 0.3 + 0.1 = 1.6)%float
  /\ forall (random : nat -> number) (chestType : string),
       match calculate random vipSignals chestType with
       | Normal rewards => bonusMultiplier rewards = 1.6%float
       | Throw _ => inherited chestType = true
       end.
Proof.
  split; [exact vipSignals_multiplier |].
  split; [vm_compute; reflexivity |].
  intros random chestType.
  unfold calculate, getBaseRewards, rewardTable.
  destruct (String.eqb chestType "silver");
    [cbn [bonusMultiplier]; exact vipSignals_multiplier |].
  destruct (String.eqb chestType "gold");
    [cbn [bonusMultiplier]; exact vipSignals_multiplier |].
  destruct (String.eqb chestType "platinum");
    [cbn [bonusMultiplier]; exact vipSignals_multiplier |].
  destruct (inherited chestType);
    [reflexivity | cbn [bonusMultiplier]; exact vipSignals_multiplier].
Qed.

End RewardMultiplier.


(** ** The configuration resolver *)

Section ResolverFacts.
Import JS GamificationEngine.
Context {Value : Type} (JSON_parse : string -> option Value).
Context (clock : nat -> Z) (configService : string -> Response Value).

Abbreviation getConfig := (getConfig JSON_parse clock configService).
Abbreviation fromRedis := (fromRedis JSON_parse clock configService).
Abbreviation fromService := (fromService clock configService).

Lemma fromService_success (key : string) (w : World Value) (config : Config Value) (v : Value) :
  configService key = Resolves true (Some config) ->
  typed_value config = Some v ->
  fromService key w = (Normal (Some v), stored clock key v w).
Proof.
  intros Hs Hv. unfold GamificationEngine.fromService, axios_get, bind. rewrite Hs.
  unfold typed_value in Hv. cbn.
  destruct (get_typed_value config); inversion Hv; subst; reflexivity.
Qed.

Lemma fromService_absent (key : string) (w : World Value) :
  origin_absent (configService key) = true ->
  fromService key w = (Normal None, w) \/ fromService key w = (Throw RequestError, w).
Proof.
  unfold GamificationEngine.fromService, axios_get, bind.
  destruct (configService key) as [| success data]; cbn.
  - right. reflexivity.
  - destruct success; [discriminate | left; reflexivity].
Qed.

Lemma fromRedis_miss (key : string) (w : World Value) :
  redis_miss key w = true -> fromRedis key w = fromService key w.
Proof.
  unfold redis_miss, GamificationEngine.fromRedis, redisClient_get, bind.
  destruct (redisClient w); cbn; [| reflexivity].
  destruct (redis_up w); cbn; [| discriminate].
  destruct (redis w !! String.append "config_cache:" key) as [text |]; [| reflexivity].
  destruct (truthy text); [discriminate | reflexivity].
Qed.

Lemma redis_miss_afterLocalMiss (key : string) (w : World Value) :
  redis_miss key (afterLocalMiss key w) = redis_miss key w.
Proof. unfold afterLocalMiss. destruct (localCache w !! key); reflexivity. Qed.

Lemma getConfig_local_miss (key : string) (w : World Value) :
  local_miss clock key w = true ->
  getConfig key w
  = try_catch (fromRedis key) (fun _ => ret None) (afterLocalMiss key w).
Proof.
  unfold local_miss, afterLocalMiss, GamificationEngine.getConfig, try_catch, bind,
    localCache_get.
  destruct (localCache w !! key) as [entry |]; [| reflexivity].
  cbn. intros H. apply negb_true_iff in H. rewrite H. reflexivity.
Qed.

Lemma getConfig_returns (key : string) (w : World Value) :
  exists result w', getConfig key w = (Normal result, w').
Proof.
  unfold GamificationEngine.getConfig, try_catch.
  match goal with |- context [match ?body with _ => _ end] => destruct body as [[a | e] w'] end.
  - exists a, w'. reflexivity.
  - exists None, w'. reflexivity.
Qed.

(** C3 (as the engine behaves): when both caches miss and the service
    answers with a value, [getConfig] returns that value after storing
    it, with the clock's reading, in the in-process cache.  The
    distributed cache is left as it was: the engine only ever reads it. *)
Theorem C3_fetched_value_cached_in_process (key : string) (w : World Value)
  (config : Config Value) (v : Value) :
  local_miss clock key w = true ->
  redis_miss key w = true ->
  configService key = Resolves true (Some config) ->
  typed_value config = Some v ->
  let '(result, w') := getConfig key w in
  result = Normal (Some v)
  /\ localCache w' !! key
     = Some {| value := v; timestamp := clock (reads (afterLocalMiss key w)) |}
  /\ redis w' = redis w.
Proof.
  intros Hl Hr Hs Hv.
  rewrite (getConfig_local_miss key w Hl). unfold try_catch.
  rewrite fromRedis_miss by (rewrite redis_miss_afterLocalMiss; exact Hr).
  rewrite (fromService_success key _ config v Hs Hv).
  split; [reflexivity |]. split.
  - unfold stored. cbn [localCache]. apply lookup_insert_eq.
  - unfold stored, afterLocalMiss. cbn [redis].
    destruct (localCache w !! key); reflexivity.
Qed.

(** C9: [getConfig] always returns, whatever the key, the caches, the
    clock and the service; and when both caches miss and the service
    cannot be reached, does not answer in time, or does not report the
    key as found, what it returns is [null], leaving the caches as they
    were. *)
Theorem C9_getConfig_never_throws (key : string) (w : World Value) :
  (exists result w', getConfig key w = (Normal result, w'))
  /\ (local_miss clock key w = true ->
      redis_miss key w = true ->
      origin_absent (configService key) = true ->
      getConfig key w = (Normal None, afterLocalMiss key w)).
Proof.
  split; [apply getConfig_returns |].
  intros Hl Hr Ho.
  rewrite (getConfig_local_miss key w Hl). unfold try_catch.
  rewrite fromRedis_miss by (rewrite redis_miss_afterLocalMiss; exact Hr).
  destruct (fromService_absent key (afterLocalMiss key w) Ho) as [E | E];
    rewrite E; reflexivity.
Qed.

End ResolverFacts.

Section ResolverExamples.
Import JS GamificationEngine Scenarios.

(** C3 (as stated) fails: a freshly connected engine asked for
    "chest_success_rate" misses both caches, obtains "0.7" from the
    service and returns it, and the distributed cache still holds
    nothing under "config_cache:chest_success_rate". *)
Lemma C3_distributed_cache_not_written :
  let key := "chest_success_rate" in
  let '(result, w') := getConfig parseText stoppedClock servingService key freshWorld in
  local_miss stoppedClock key freshWorld = true
  /\ redis_miss key freshWorld = true
  /\ result = Normal (Some "0.7")
  /\ ~ is_Some (redis w' !! String.append "config_cache:" key).
Proof.
  vm_compute. repeat split; try reflexivity.
  intros [text H]. discriminate.
Qed.

(** C3 at the same input: the value is in the in-process cache. *)
Lemma C3_fetched_value_witness :
  let '(result, w') :=
    getConfig parseText stoppedClock servingService "chest_success_rate" freshWorld in
  result = Normal (Some "0.7")
  /\ localCache w' !! "chest_success_rate"
     = Some {| value := "0.7"; timestamp := vipNow |}
  /\ redis w' = ∅.
Proof.
  apply (C3_fetched_value_cached_in_process parseText stoppedClock servingService
           "chest_success_rate" freshWorld
           {| get_typed_value := NoGetter; config_value := "0.7" |} "0.7");
    reflexivity.
Defined.

(** C9 at a freshly connected engine whose service cannot be reached. *)
Lemma C9_unreachable_witness :
  getConfig parseText stoppedClock unreachableService "chest_success_rate" freshWorld
  = (Normal None, freshWorld).
Proof.
  apply (proj2 (C9_getConfig_never_throws parseText stoppedClock unreachableService
                  "chest_success_rate" freshWorld));
    reflexivity.
Defined.

End ResolverExamples.


(** ** [Array.prototype.sort] *)

Section ArraySortFacts.
Import JS.
Context {A : Type} (lt0 : A -> A -> bool).

(** *** Whatever the comparator answers, the search ends and the array
    is permuted

    The search halves its range at every step, so that it has ended
    before the fuel [BinaryInsertionSort] gives it is used up: more fuel
    changes nothing. *)

Lemma bsearch_fuel (fuel fuel' : nat) (pivot : A) (pre : list A) (left right : nat) :
  right - left < fuel -> right - left < fuel' ->
  bsearch lt0 fuel pivot pre left right = bsearch lt0 fuel' pivot pre left right.
Proof.
  revert fuel' left right.
  induction fuel as [| fuel IH]; intros fuel' left right Hfuel Hfuel'; [lia |].
  destruct fuel' as [| fuel']; [lia |].
  cbn [bsearch].
  destruct (Nat.ltb_spec left right) as [Hlt | Hge]; [| done].
  assert ((right - left) / 2 < right - left) by (apply Nat.div_lt; lia).
  destruct (pre !! (left + (right - left) / 2)) as [y |]; [| done].
  destruct (lt0 pivot y); apply IH; lia.
Qed.


Lemma insert_at_Permutation (i : nat) (x : A) (l : list A) :
  insert_at i x l ≡ₚ x :: l.
Proof.
  unfold insert_at. rewrite <- Permutation_middle. by rewrite take_drop.
Qed.

Lemma BinaryInsertionSort_Permutation (pre rest : list A) :
  BinaryInsertionSort lt0 pre rest ≡ₚ pre ++ rest.
Proof.
  revert pre. induction rest as [| pivot rest IH]; intros pre; cbn [BinaryInsertionSort].
  - by rewrite app_nil_r.
  - cbv zeta. rewrite IH, insert_at_Permutation. apply Permutation_middle.
Qed.

Lemma CountAndMakeRun_Permutation (l : list A) :
  (CountAndMakeRun lt0 l).2 ≡ₚ l.
Proof.
  destruct l as [| high [| low rest]]; [done | done |].
  unfold CountAndMakeRun.
  set (n := 2 + run_ext lt0 (lt0 low high) low rest).
  destruct (lt0 low high); [| done]. cbn [snd].
  rewrite reverse_Permutation. by rewrite take_drop.
Qed.

Lemma Array_sort_Permutation (l : list A) : Array_sort lt0 l ≡ₚ l.
Proof.
  unfold Array_sort.
  pose proof (CountAndMakeRun_Permutation l) as H.
  destruct (CountAndMakeRun lt0 l) as [n l']. cbn [snd] in H.
  rewrite BinaryInsertionSort_Permutation. by rewrite take_drop.
Qed.

(** *** A comparator that agrees with an order sorts by it

    [R] is the order the caller wants; [agrees x y] says that the
    comparator, asked about a later element [y] and an earlier element
    [x] - the only way round the engine ever asks - answers in accordance
    with [R]. *)

Context (R : relation A) `{!Transitive R}.

Definition agrees (x y : A) : Prop := if lt0 y x then R y x else R x y.

Lemma ForallOrdPairs_app_inv (P : A -> A -> Prop) (l1 l2 : list A) :
  ForallOrdPairs P (l1 ++ l2) ->
  ForallOrdPairs P l1 /\ ForallOrdPairs P l2
  /\ (forall x y, x ∈ l1 -> y ∈ l2 -> P x y).
Proof.
  induction l1 as [| a l1 IH]; cbn; intros H.
  - split; [constructor |]. split; [done |]. intros x y Hx. by apply elem_of_nil in Hx.
  - inversion H as [| ? ? Ha Hl]; subst.
    destruct (IH Hl) as (H1 & H2 & H3).
    apply Forall_app in Ha as [Ha1 Ha2].
    split; [by constructor |]. split; [done |].
    intros x y Hx Hy. apply elem_of_cons in Hx as [-> | Hx]; [| by apply H3].
    rewrite Forall_forall in Ha2. by apply Ha2.
Qed.

Lemma bsearch_correct (fuel : nat) (pivot : A) (pre : list A) (left right : nat) :
  StronglySorted R pre ->
  Forall (fun y => agrees y pivot) pre ->
  left <= right <= length pre ->
  right - left < fuel ->
  Forall (fun y => R y pivot) (take left pre) ->
  Forall (R pivot) (drop right pre) ->
  Forall (fun y => R y pivot) (take (bsearch lt0 fuel pivot pre left right) pre)
  /\ Forall (R pivot) (drop (bsearch lt0 fuel pivot pre left right) pre).
Proof.
  intros Hsorted Hagrees.
  revert left right.
  induction fuel as [| fuel IH]; intros left right Hbounds Hfuel Hleft Hright; [lia |].
  cbn [bsearch].
  destruct (Nat.ltb_spec left right) as [Hlt | Hge].
  - set (mid := left + (right - left) / 2).
    assert (Hmid : left <= mid < right).
    { subst mid. split; [lia |].
      assert ((right - left) / 2 < right - left) by (apply Nat.div_lt; lia). lia. }
    destruct (pre !! mid) as [y |] eqn:Hy;
      [| apply lookup_ge_None in Hy; lia].
    pose proof (take_drop_middle pre mid y Hy) as Hsplit.
    assert (Hy_in : y ∈ pre) by (by eapply list_elem_of_lookup_2).
    rewrite Forall_forall in Hagrees. specialize (Hagrees y Hy_in).
    unfold agrees in Hagrees.
    rewrite <- Hsplit in Hsorted.
    apply StronglySorted_app in Hsorted as (Hcross & _ & Htail).
    apply StronglySorted_cons in Htail as [Hafter _].
    destruct (lt0 pivot y).
    + apply IH; [lia | lia | done |].
      rewrite (drop_S pre y mid Hy). constructor; [done |].
      eapply Forall_impl; [exact Hafter |]. intros z Hz. by transitivity y.
    + apply IH; [lia | lia | | done].
      replace (mid + 1) with (S mid) by lia.
      rewrite (take_S_r pre mid y Hy). apply Forall_app. split; [| by constructor].
      apply Forall_forall. intros z Hz. transitivity y; [| done].
      apply Hcross; [done | left].
  - assert (left = right) as -> by lia. done.
Qed.

Lemma insert_at_sorted (i : nat) (pivot : A) (pre : list A) :
  StronglySorted R pre ->
  Forall (fun y => R y pivot) (take i pre) ->
  Forall (R pivot) (drop i pre) ->
  StronglySorted R (insert_at i pivot pre).
Proof.
  intros Hsorted Hbefore Hafter. unfold insert_at.
  rewrite <- (take_drop i pre) in Hsorted.
  apply StronglySorted_app in Hsorted as (Hcross & H1 & H2).
  apply StronglySorted_app. split; [| split; [done |]].
  - intros x1 x2 Hx1 Hx2. apply elem_of_cons in Hx2 as [-> | Hx2].
    + rewrite Forall_forall in Hbefore. by apply Hbefore.
    + by apply Hcross.
  - by apply StronglySorted_cons.
Qed.

Lemma BinaryInsertionSort_sorted (pre rest : list A) :
  StronglySorted R pre ->
  (forall y p, y ∈ pre -> p ∈ rest -> agrees y p) ->
  ForallOrdPairs agrees rest ->
  StronglySorted R (BinaryInsertionSort lt0 pre rest).
Proof.
  revert pre. induction rest as [| pivot rest IH]; intros pre Hsorted Hcross Hrest;
    cbn [BinaryInsertionSort]; [done |].
  inversion Hrest as [| ? ? Hpivot Hrest']; subst.
  assert (Hagrees : Forall (fun y => agrees y pivot) pre).
  { apply Forall_forall. intros y Hy. apply Hcross; [done | left]. }
  destruct (bsearch_correct (S (length pre)) pivot pre 0 (length pre))
    as [Hbefore Hafter]; [done | done | lia | lia | by rewrite take_0 | |].
  { rewrite drop_all. constructor. }
  apply IH; [by apply insert_at_sorted | | done].
  intros y p Hy Hp.
  rewrite insert_at_Permutation in Hy. apply elem_of_cons in Hy as [-> | Hy].
  - rewrite Forall_forall in Hpivot. by apply Hpivot.
  - apply Hcross; [done | by right].
Qed.

Lemma run_ext_le (desc : bool) (prev : A) (rest : list A) :
  run_ext lt0 desc prev rest <= length rest.
Proof.
  revert prev. induction rest as [| cur rest IH]; intros prev; cbn; [lia |].
  destruct (Bool.eqb (lt0 cur prev) desc); [| lia]. specialize (IH cur). lia.
Qed.

Lemma run_ascending (prev : A) (rest : list A) :
  ForallOrdPairs agrees (prev :: rest) ->
  Sorted R (prev :: take (run_ext lt0 false prev rest) rest).
Proof.
  revert prev. induction rest as [| cur rest IH]; intros prev Hpairs; cbn.
  - repeat constructor.
  - inversion Hpairs as [| ? ? Hprev Hrest]; subst.
    apply Forall_cons in Hprev as [Hcur _]. unfold agrees in Hcur.
    destruct (lt0 cur prev); cbn.
    + repeat constructor.
    + constructor; [by apply IH | by constructor].
Qed.

Lemma run_descending (prev : A) (rest : list A) :
  ForallOrdPairs agrees (prev :: rest) ->
  Sorted (flip R) (prev :: take (run_ext lt0 true prev rest) rest).
Proof.
  revert prev. induction rest as [| cur rest IH]; intros prev Hpairs; cbn.
  - repeat constructor.
  - inversion Hpairs as [| ? ? Hprev Hrest]; subst.
    apply Forall_cons in Hprev as [Hcur _]. unfold agrees in Hcur.
    destruct (lt0 cur prev); cbn.
    + constructor; [by apply IH | by constructor].
    + repeat constructor.
Qed.

Lemma CountAndMakeRun_sorted (l : list A) :
  ForallOrdPairs agrees l ->
  let '(n, l') := CountAndMakeRun lt0 l in
  StronglySorted R (take n l')
  /\ (forall y p, y ∈ take n l' -> p ∈ drop n l' -> agrees y p)
  /\ ForallOrdPairs agrees (drop n l').
Proof.
  intros Hpairs.
  destruct l as [| high [| low rest]].
  - cbn. split; [constructor |]. split; [| constructor].
    intros y p Hy. by apply elem_of_nil in Hy.
  - cbn. split; [repeat constructor |]. split; [| constructor].
    intros y p _ Hp. by apply elem_of_nil in Hp.
  - unfold CountAndMakeRun.
    set (desc := lt0 low high).
    set (k := run_ext lt0 desc low rest).
    assert (Hk : k <= length rest) by apply run_ext_le.
    change (2 + k) with (S (S k)).
    assert (Htake : take (S (S k)) (high :: low :: rest) = high :: low :: take k rest)
      by reflexivity.
    assert (Hdrop : drop (S (S k)) (high :: low :: rest) = drop k rest) by reflexivity.
    pose proof Hpairs as Hsplit.
    rewrite <- (take_drop (S (S k)) (high :: low :: rest)) in Hsplit.
    apply ForallOrdPairs_app_inv in Hsplit as (_ & Hrest & Hcross).
    inversion Hpairs as [| ? ? Hhigh Hlow]; subst.
    apply Forall_cons in Hhigh as [Hhl _]. unfold agrees in Hhl. fold desc in Hhl.
    destruct desc eqn:Hdesc.
    + assert (Hlen : length (reverse (take (S (S k)) (high :: low :: rest))) = S (S k)).
      { rewrite length_reverse, Htake. cbn. rewrite length_take. lia. }
      rewrite take_app_length', drop_app_length' by done.
      split; [| split; [| done]].
      * apply Sorted_StronglySorted; [done |].
        rewrite Htake.
        apply (Sorted_reverse (flip R)).
        constructor; [by apply run_descending | constructor; exact Hhl].
      * intros y p Hy Hp. apply Hcross; [by apply elem_of_reverse | done].
    + split; [| split; [done | done]].
      apply Sorted_StronglySorted; [done |].
      rewrite Htake.
      constructor; [by apply run_ascending | constructor; exact Hhl].
Qed.

(** The sort returns the elements of the array ordered by [R], provided
    the comparator agrees with [R] on every pair it can be asked about. *)
Lemma Array_sort_sorted (l : list A) :
  ForallOrdPairs agrees l ->
  StronglySorted R (Array_sort lt0 l).
Proof.
  intros Hpairs. unfold Array_sort.
  pose proof (CountAndMakeRun_sorted l Hpairs) as H.
  destruct (CountAndMakeRun lt0 l) as [n l'].
  destruct H as (Hsorted & Hcross & Hrest).
  by apply BinaryInsertionSort_sorted.
Qed.

End ArraySortFacts.


(** ** Peak hours *)

Section PeakHours.
Import JS BehaviorAnalyzer.

Lemma HourKey_eqb_eq (a b : HourKey) : HourKey_eqb a b = true <-> a = b.
Proof.
  destruct a as [x |], b as [y |]; cbn -[Nat.eqb];
    try (split; [discriminate | congruence]); [| done].
  rewrite Nat.eqb_eq. split; congruence.
Qed.

Lemma HourKey_eqb_refl (a : HourKey) : HourKey_eqb a a = true.
Proof. by apply HourKey_eqb_eq. Qed.

Lemma HourKey_eqb_sym (a b : HourKey) : HourKey_eqb a b = HourKey_eqb b a.
Proof.
  destruct a as [x |], b as [y |]; cbn -[Nat.eqb]; try done. apply Nat.eqb_sym.
Qed.

Lemma HourKey_lt_irrefl (a : HourKey) : ~ HourKey_lt a a.
Proof.
  unfold HourKey_lt. destruct a as [x |]; cbn -[Nat.ltb]; [| done].
  rewrite Nat.ltb_lt. lia.
Qed.

#[local] Instance HourKey_lt_trans : Transitive HourKey_lt.
Proof.
  unfold HourKey_lt. intros [x |] [y |] [z |]; cbn -[Nat.ltb]; try done.
  rewrite !Nat.ltb_lt. lia.
Qed.

Lemma HourKey_lt_total (a b : HourKey) :
  HourKey_eqb a b = false -> HourKey_ltb a b = false -> HourKey_lt b a.
Proof.
  unfold HourKey_lt. destruct a as [x |], b as [y |]; cbn -[Nat.ltb Nat.eqb]; try done.
  rewrite Nat.eqb_neq, Nat.ltb_ge, Nat.ltb_lt. lia.
Qed.

Lemma HourKey_lt_neq (a b : HourKey) : HourKey_lt a b -> HourKey_eqb b a = false.
Proof.
  intros Hlt. destruct (HourKey_eqb b a) eqn:E; [| done].
  apply HourKey_eqb_eq in E as ->. by apply HourKey_lt_irrefl in Hlt.
Qed.

Lemma fold_left_map_inside {X Y Z : Type} (f : Z -> Y -> Z) (g : X -> Y)
  (l : list X) (z : Z) :
  fold_left f (map g l) z = fold_left (fun z x => f z (g x)) l z.
Proof. revert z. induction l as [| x l IH]; intros z; cbn; [done | apply IH]. Qed.

(** *** The object [hourCounts] *)

Lemma hourCounts_incr_keys (hour : HourKey) (o : list (HourKey * nat)) :
  Forall (fun k => k = hour \/ In k (map fst o)) (map fst (hourCounts_incr hour o)).
Proof.
  induction o as [| [k c] rest IH]; cbn.
  - repeat constructor.
  - destruct (HourKey_eqb hour k); [| destruct (HourKey_ltb hour k)]; cbn.
    + constructor; [by right; left |].
      apply Forall_forall. intros x Hx. right. right. by apply list_elem_of_In.
    + constructor; [by left |]. constructor; [by right; left |].
      apply Forall_forall. intros x Hx. right. right. by apply list_elem_of_In.
    + constructor; [by right; left |].
      eapply Forall_impl; [exact IH |]. intros x [-> | Hx]; [by left | by right; right].
Qed.

Lemma hourCounts_incr_sorted (hour : HourKey) (o : list (HourKey * nat)) :
  StronglySorted HourKey_lt (map fst o) ->
  StronglySorted HourKey_lt (map fst (hourCounts_incr hour o)).
Proof.
  induction o as [| [k c] rest IH]; cbn; intros Hsorted.
  - repeat constructor.
  - apply StronglySorted_cons in Hsorted as [Hk Hrest].
    destruct (HourKey_eqb hour k) eqn:Heq; [| destruct (HourKey_ltb hour k) eqn:Hlt]; cbn.
    + by apply StronglySorted_cons.
    + apply StronglySorted_cons. split; [| by apply StronglySorted_cons].
      constructor; [done |].
      eapply Forall_impl; [exact Hk |]. intros x Hx. by transitivity k.
    + apply StronglySorted_cons. split; [| by apply IH].
      pose proof (hourCounts_incr_keys hour rest) as Hkeys.
      rewrite Forall_forall in Hkeys, Hk. apply Forall_forall. intros x Hx.
      destruct (Hkeys x Hx) as [-> | Hin].
      * by apply HourKey_lt_total.
      * apply Hk. by apply list_elem_of_In.
Qed.

Lemma count_of_absent (hour : HourKey) (o : list (HourKey * nat)) :
  Forall (HourKey_lt hour) (map fst o) -> count_of hour o = 0.
Proof.
  induction o as [| [k c] rest IH]; cbn; [done |]. intros H.
  apply Forall_cons in H as [Hk Hrest].
  rewrite HourKey_eqb_sym, (HourKey_lt_neq _ _ Hk). by apply IH.
Qed.

Lemma count_of_incr (hour k : HourKey) (o : list (HourKey * nat)) :
  StronglySorted HourKey_lt (map fst o) ->
  count_of k (hourCounts_incr hour o)
  = if HourKey_eqb k hour then S (count_of k o) else count_of k o.
Proof.
  induction o as [| [k' c] rest IH]; cbn; intros Hsorted.
  - by destruct (HourKey_eqb k hour).
  - apply StronglySorted_cons in Hsorted as [Hk' Hrest].
    destruct (HourKey_eqb hour k') eqn:Heq; [| destruct (HourKey_ltb hour k') eqn:Hlt]; cbn.
    + apply HourKey_eqb_eq in Heq as ->. by destruct (HourKey_eqb k k').
    + destruct (HourKey_eqb k hour) eqn:Hk; [| done].
      apply HourKey_eqb_eq in Hk as ->. rewrite Heq.
      rewrite count_of_absent; [done |].
      eapply Forall_impl; [exact Hk' |]. intros x Hx. by transitivity k'.
    + destruct (HourKey_eqb k k') eqn:Hkk'.
      * apply HourKey_eqb_eq in Hkk' as ->.
        by rewrite HourKey_eqb_sym, Heq.
      * by apply IH.
Qed.

Lemma hourCounts_incr_positive (hour : HourKey) (o : list (HourKey * nat)) :
  Forall (fun e => 0 < e.2) o -> Forall (fun e => 0 < e.2) (hourCounts_incr hour o).
Proof.
  induction o as [| [k c] rest IH]; cbn; intros H.
  - repeat constructor.
  - apply Forall_cons in H as [Hc Hrest]. cbn in Hc.
    destruct (HourKey_eqb hour k); [| destruct (HourKey_ltb hour k)].
    + constructor; [cbn; lia | done].
    + constructor; [cbn; lia |]. by constructor.
    + constructor; [done | by apply IH].
Qed.

Lemma occurrences_snoc (hours : list HourKey) (hour k : HourKey) :
  occurrences (hours ++ [hour]) k
  = if HourKey_eqb k hour then S (occurrences hours k) else occurrences hours k.
Proof.
  unfold occurrences. rewrite List.filter_app, length_app. cbn.
  destruct (HourKey_eqb k hour); cbn; lia.
Qed.

Lemma counted_fold (hours seen : list HourKey) (o : list (HourKey * nat)) :
  counted seen o ->
  counted (seen ++ hours) (fold_left (fun o hour => hourCounts_incr hour o) hours o).
Proof.
  revert seen o. induction hours as [| hour hours IH]; intros seen o H; cbn.
  - by rewrite app_nil_r.
  - replace (seen ++ hour :: hours) with ((seen ++ [hour]) ++ hours)
      by (by rewrite <- app_assoc).
    apply IH. destruct H as [Hs Hp Hc]. split.
    + by apply hourCounts_incr_sorted.
    + by apply hourCounts_incr_positive.
    + intros k. rewrite count_of_incr, occurrences_snoc, Hc; done.
Qed.

Lemma identifyPeakHours_counted (tzOffset : Z -> Z) (sessionHistory : list SessionRecord) :
  counted (startHours tzOffset sessionHistory)
    (fold_left
       (fun o session => hourCounts_incr (getHours tzOffset (startTime session)) o)
       sessionHistory []).
Proof.
  unfold startHours.
  rewrite <- (fold_left_map_inside (fun o hour => hourCounts_incr hour o)
                (fun session => getHours tzOffset (startTime session))).
  apply (counted_fold _ [] []). split; [constructor | constructor | done].
Qed.

Lemma counted_entry (seen : list HourKey) (o : list (HourKey * nat)) (k : HourKey) (c : nat) :
  counted seen o -> (k, c) ∈ o -> c = occurrences seen k /\ 0 < c.
Proof.
  intros [Hs Hp Hc] Hin. split.
  - rewrite <- Hc. clear Hc Hp. induction o as [| [k' c'] rest IH]; [by apply elem_of_nil in Hin |].
    cbn in Hs. apply StronglySorted_cons in Hs as [Hk' Hrest]. cbn.
    apply elem_of_cons in Hin as [E | Hin].
    + inversion E; subst. by rewrite HourKey_eqb_refl.
    + assert (HourKey_lt k' k).
      { rewrite Forall_forall in Hk'. apply Hk'.
        apply list_elem_of_In, in_map_iff. exists (k, c). split; [done |].
        by apply list_elem_of_In. }
      rewrite (HourKey_lt_neq k' k); [by apply IH | done].
  - rewrite Forall_forall in Hp. by apply (Hp (k, c)).
Qed.

Lemma counted_key (seen : list HourKey) (o : list (HourKey * nat)) (k : HourKey) :
  counted seen o -> 0 < occurrences seen k -> exists c, (k, c) ∈ o.
Proof.
  intros [_ _ Hc]. rewrite <- Hc. clear Hc.
  induction o as [| [k' c'] rest IH]; cbn; [lia |].
  destruct (HourKey_eqb k k') eqn:E.
  - apply HourKey_eqb_eq in E as ->. intros _. exists c'. left.
  - intros H. destruct (IH H) as [c Hin]. exists c. by right.
Qed.

Lemma occurrences_positive (hours : list HourKey) (k : HourKey) :
  0 < occurrences hours k <-> k ∈ hours.
Proof.
  unfold occurrences. induction hours as [| h hours IH]; cbn.
  - split; [lia | intros H; by apply elem_of_nil in H].
  - rewrite elem_of_cons. destruct (HourKey_eqb k h) eqn:E; cbn.
    + apply HourKey_eqb_eq in E as ->. split; [by left | lia].
    + rewrite IH. split; [by right |]. intros [-> | H]; [| done].
      by rewrite HourKey_eqb_refl in E.
Qed.

(** *** The ranking *)

Section Ranking.
Context (hours : list HourKey).

#[local] Instance ranked_trans : Transitive (ranked hours).
Proof.
  intros e1 e2 e3 (H1 & _ & [Hlt | [Heq Hk]]) (_ & H3 & [Hlt' | [Heq' Hk']]);
    (split; [done |]); (split; [done |]); unfold prefer.
  - left. lia.
  - left. lia.
  - left. lia.
  - right. split; [lia |]. by apply (HourKey_lt_trans _ e2.1).
Qed.

Lemma byCountDesc_agrees (l : list (HourKey * nat)) :
  StronglySorted HourKey_lt (map fst l) ->
  (forall e, e ∈ l -> e.2 = occurrences hours e.1) ->
  ForallOrdPairs (agrees byCountDesc (ranked hours)) l.
Proof.
  induction l as [| x l IH]; cbn; intros Hsorted Hcounts; [constructor |].
  apply StronglySorted_cons in Hsorted as [Hx Hl].
  constructor.
  - apply Forall_forall. intros y Hy.
    assert (Hxy : HourKey_lt x.1 y.1).
    { rewrite Forall_forall in Hx. apply Hx.
      apply list_elem_of_In, in_map. by apply list_elem_of_In. }
    pose proof (Hcounts x ltac:(left)) as Cx.
    pose proof (Hcounts y ltac:(by right)) as Cy.
    unfold agrees, byCountDesc, ranked, prefer.
    destruct (Z.ltb_spec (Z.of_nat x.2 - Z.of_nat y.2) 0).
    + split; [done |]. split; [done |]. left. lia.
    + split; [done |]. split; [done |].
      destruct (decide (x.2 = y.2)) as [E | E]; [right | left]; [| lia].
      split; [lia | done].
  - apply IH; [done |]. intros e He. apply Hcounts. by right.
Qed.

End Ranking.

Lemma StronglySorted_map {X Y : Type} (R1 : relation X) (R2 : relation Y) (f : X -> Y)
  (l : list X) :
  (forall x y, R1 x y -> R2 (f x) (f y)) ->
  StronglySorted R1 l -> StronglySorted R2 (map f l).
Proof.
  intros Hf. induction 1 as [| x l Hl IH Hx]; cbn; constructor; [done |].
  apply Forall_forall. intros y Hy.
  apply list_elem_of_In, in_map_iff in Hy as [z [<- Hz]].
  apply Hf. rewrite Forall_forall in Hx. apply Hx. by apply list_elem_of_In.
Qed.

Lemma StronglySorted_NoDup {X : Type} (R : relation X) (l : list X) :
  (forall x, ~ R x x) -> StronglySorted R l -> NoDup l.
Proof.
  intros Hirr. induction 1 as [| x l Hl IH Hx]; constructor; [| done].
  intros Hin. rewrite Forall_forall in Hx. by apply (Hirr x), Hx.
Qed.

Lemma elem_of_map_fst {X Y : Type} (k : X) (l : list (X * Y)) :
  k ∈ map fst l <-> exists c, (k, c) ∈ l.
Proof.
  rewrite list_elem_of_In, in_map_iff. split.
  - intros [[k' c] [E Hin]]. cbn in E. subst. exists c. by apply list_elem_of_In.
  - intros [c Hin]. exists (k, c). split; [done | by apply list_elem_of_In].
Qed.

(** The hours [identifyPeakHours] returns are the first three of the
    ranking of the start hours, or all of them when fewer than three
    distinct hours occur. *)
Lemma identifyPeakHours_ranking (tzOffset : Z -> Z) (sessionHistory : list SessionRecord) :
  let hours := startHours tzOffset sessionHistory in
  let peak := identifyPeakHours tzOffset sessionHistory in
  length peak = Nat.min 3 (length (remove_dups hours))
  /\ (forall h, h ∈ peak -> h ∈ hours)
  /\ StronglySorted (prefer hours) peak
  /\ (forall h h', h ∈ peak -> h' ∈ hours -> h' ∉ peak -> prefer hours h h').
Proof.
  intros hours peak. subst peak. unfold identifyPeakHours.
  pose proof (identifyPeakHours_counted tzOffset sessionHistory) as Hcounted.
  fold hours in Hcounted.
  set (o := fold_left _ sessionHistory []) in *.
  set (sorted := Array_sort byCountDesc o).
  assert (Hperm : sorted ≡ₚ o) by apply Array_sort_Permutation.
  assert (Hentry : forall e, e ∈ sorted -> e.2 = occurrences hours e.1 /\ 0 < e.2).
  { intros [k c] He. rewrite Hperm in He. by apply (counted_entry hours o). }
  assert (Hsorted : StronglySorted (ranked hours) sorted).
  { apply Array_sort_sorted; [apply ranked_trans |].
    apply byCountDesc_agrees; [by destruct Hcounted |].
    intros [k c] He. by apply (counted_entry hours o). }
  assert (Hkeys : forall k, k ∈ map fst o <-> k ∈ hours).
  { intros k. rewrite elem_of_map_fst, <- occurrences_positive. split.
    - intros [c Hc]. destruct (counted_entry hours o k c Hcounted Hc). lia.
    - by apply counted_key. }
  rewrite <- (take_drop 3 sorted) in Hsorted.
  apply StronglySorted_app in Hsorted as (Hcross & Htop & _).
  split; [| split; [| split]].
  - rewrite length_map, length_take. f_equal.
    rewrite (Permutation_length Hperm), <- (length_map fst o).
    apply Permutation_length, NoDup_Permutation.
    + apply (StronglySorted_NoDup HourKey_lt); [apply HourKey_lt_irrefl |].
      by destruct Hcounted.
    + apply NoDup_remove_dups.
    + intros k. by rewrite Hkeys, elem_of_remove_dups.
  - intros h Hh. apply elem_of_map_fst in Hh as [c Hc].
    apply elem_of_take in Hc as (i & Hc & _). apply list_elem_of_lookup_2 in Hc.
    destruct (Hentry _ Hc) as [E Hpos]. cbn in E, Hpos.
    apply occurrences_positive. lia.
  - eapply StronglySorted_map; [| exact Htop]. by intros x y (_ & _ & H).
  - intros h h' Hh Hh' Hnot.
    apply elem_of_map_fst in Hh as [c Hc].
    apply Hkeys, elem_of_map_fst in Hh' as [c' Hc'].
    rewrite <- Hperm, <- (take_drop 3 sorted) in Hc'.
    apply elem_of_app in Hc' as [Hc' | Hc'].
    + exfalso. apply Hnot, elem_of_map_fst. by exists c'.
    + by destruct (Hcross _ _ Hc Hc') as (_ & _ & H).
Qed.

(** C7: the session analysis returns (at most) three start hours: as
    many as there are distinct start hours when these are fewer than
    three; every returned hour is the start hour of some session; the
    returned hours come in ranking order, more frequent first and, at
    equal frequency, the lower hour first; and every returned hour ranks
    before every start hour that is left out.  The not-a-number hour of a
    session whose start time is not a date ranks after every hour of the
    same frequency. *)
Theorem C7_peakHours_ranking (tzOffset : Z -> Z) (sessionHistory : list SessionRecord) :
  let hours := startHours tzOffset sessionHistory in
  let peak := peakHours (analyzeSessions tzOffset sessionHistory) in
  length peak = Nat.min 3 (length (remove_dups hours))
  /\ (forall h, h ∈ peak -> h ∈ hours)
  /\ StronglySorted (prefer hours) peak
  /\ (forall h h', h ∈ peak -> h' ∈ hours -> h' ∉ peak -> prefer hours h h').
Proof.
  destruct sessionHistory as [| first rest].
  - cbn. split; [done |]. split; [done |]. split; [constructor |].
    intros h h' Hh. by apply elem_of_nil in Hh.
  - apply (identifyPeakHours_ranking tzOffset (first :: rest)).
Qed.

End PeakHours.


(** ** The chest distribution *)

Section ChestDistribution.
Import JS ChestOptimizer Scenarios.

Lemma push_recommended (sorted : list (string * ChestPotential)) (distribution : list Chest) :
  fold_left
    (fun distribution '(chestType, data) =>
       if gt (cp_potential data) 0.3 then
         distribution ++
           [{| type := chestType;
               quantity := calculateOptimalQuantity data;
               potential := cp_potential data;
               expectedValue := cp_expectedValue data |}]
       else distribution)
    sorted distribution
  = distribution ++ map toChest (List.filter recommended sorted).
Proof.
  revert distribution.
  induction sorted as [| [chestType data] sorted IH]; intros distribution; cbn.
  - by rewrite app_nil_r.
  - rewrite IH. cbn [List.filter]. unfold recommended at 1, gt. cbn [snd].
    destruct (PrimFloat.ltb 0.3 (cp_potential data)); [| done].
    by rewrite <- app_assoc.
Qed.

Lemma optimizeDistribution_filter (chestPotentials : list (string * ChestPotential))
  (configs : string -> option ConfigValue) :
  optimizeDistribution chestPotentials configs
  = map toChest
      (List.filter recommended
         (Array_sort (order_lt0 byExpectedValueDesc) chestPotentials)).
Proof. unfold optimizeDistribution. by rewrite push_recommended. Qed.

(** Every entry of the object [potentials] is filed under one of the
    requested chest types and was computed from what [configs] holds
    under it. *)
Lemma calculateChestPotentials_entry (userProfile : UserProfile)
  (availableChests : list string) (configs : string -> option ConfigValue)
  (chestType : string) (data : ChestPotential) :
  (chestType, data) ∈ calculateChestPotentials userProfile availableChests configs ->
  chestType ∈ availableChests
  /\ exists config,
       configs chestType = Some config /\ data = chestPotential userProfile config.
Proof.
  unfold calculateChestPotentials.
  set (requested := availableChests) at 2.
  assert (Hsub : forall id, id ∈ availableChests -> id ∈ requested) by done.
  set (ok := fun e : string * ChestPotential =>
               e.1 ∈ requested
               /\ exists config, configs e.1 = Some config
                                 /\ e.2 = chestPotential userProfile config).
  assert (Hnil : forall e, e ∈ @nil (string * ChestPotential) -> ok e).
  { intros e He. by apply elem_of_nil in He. }
  intros Hin. enough (ok (chestType, data)) by done.
  revert Hsub Hnil Hin. clearbody requested.
  generalize (@nil (string * ChestPotential)) as potentials.
  induction availableChests as [| id ids IH]; intros potentials Hsub Hinv Hin; cbn in Hin.
  - apply (Hinv (chestType, data) Hin).
  - eapply IH; [| | exact Hin].
    { intros id' Hid'. apply Hsub. by right. }
    assert (Hid : id ∈ requested) by (apply Hsub; left).
    destruct (configs id) as [config |] eqn:Hconfig; [| done].
    unfold potentials_set. destruct (String.eqb id "__proto__"); [done |].
    assert (Hnew : ok (id, chestPotential userProfile config)).
    { split; [done |]. by exists config. }
    clear Hin IH. induction potentials as [| [k w] rest IHp]; cbn.
    + intros e He. by apply list_elem_of_singleton in He as ->.
    + destruct (String.eqb id k) eqn:Hk; intros e He.
      * apply String.eqb_eq in Hk as <-.
        apply elem_of_cons in He as [-> | He]; [done |].
        apply Hinv. by right.
      * apply elem_of_cons in He as [-> | He]; [apply Hinv; left |].
        revert e He. apply IHp. intros e He. apply Hinv. by right.
Qed.

(** A member inherited from [Object.prototype] has no success rate: its
    potential is not a number, and it is never recommended. *)
Lemma inherited_not_recommended (userProfile : UserProfile) :
  gt (cp_potential (chestPotential userProfile InheritedMember)) 0.3 = false.
Proof.
  unfold chestPotential.
  destruct (gt (behaviorScore userProfile) 80), (lt (behaviorScore userProfile) 40),
    (String.eqb (riskLevel userProfile) "low"),
    (String.eqb (riskLevel userProfile) "very_high"); vm_compute; reflexivity.
Qed.

Lemma getGamificationConfigs_tier (chestType : string) (config : ChestConfig) :
  getGamificationConfigs chestType = Some (TierConfig config) ->
  config = silver \/ config = gold \/ config = platinum.
Proof.
  unfold getGamificationConfigs.
  destruct (String.eqb chestType "silver"); [intros [= <-]; by left |].
  destruct (String.eqb chestType "gold"); [intros [= <-]; by right; left |].
  destruct (String.eqb chestType "platinum"); [intros [= <-]; by right; right |].
  by destruct (inherited chestType).
Qed.

(** For the three tiers the adjusted rate never exceeds 1, so that the
    clamp leaves it as it is, and the expected value, computed from the
    rate before the clamp, is the midpoint times the potential. *)
Lemma tier_potential (userProfile : UserProfile) (config : ChestConfig) :
  config = silver \/ config = gold \/ config = platinum ->
  let data := chestPotential userProfile (TierConfig config) in
  cp_potential data = Math_min 1.0 (adjustedRate userProfile (successRate config))
  /\ cp_expectedValue data
     = ((minValue config + maxValue config) / 2 * cp_potential data)%float
  /\ ge 1.0 (cp_potential data) = true.
Proof.
  intros Htier. unfold chestPotential, adjustedRate. cbn [cp_potential cp_expectedValue].
  destruct (gt (behaviorScore userProfile) 80), (lt (behaviorScore userProfile) 40),
    (String.eqb (riskLevel userProfile) "low"),
    (String.eqb (riskLevel userProfile) "very_high");
    destruct Htier as [-> | [-> | ->]]; vm_compute; repeat split; reflexivity.
Qed.

Lemma optimize_recommended (userProfile : UserProfile) (availableChests : list string)
  (chest : Chest) :
  chest ∈ chests (optimize userProfile availableChests) ->
  exists data config,
    getGamificationConfigs (type chest) = Some config
    /\ data = chestPotential userProfile config
    /\ chest = toChest (type chest, data)
    /\ gt (cp_potential data) 0.3 = true.
Proof.
  unfold optimize. cbn [chests]. rewrite optimizeDistribution_filter.
  intros Hin. apply list_elem_of_In, in_map_iff in Hin as [[k data] [<- Hin]].
  apply filter_In in Hin as [Hin Hrec].
  apply list_elem_of_In in Hin. rewrite Array_sort_Permutation in Hin.
  apply calculateChestPotentials_entry in Hin as [_ [config [Hconfig ->]]].
  exists (chestPotential userProfile config), config. by cbn.
Qed.

(** C2: every entry of the distribution [optimize] returns is the entry
    of one of the three tiers; its potential is the tier's success rate,
    adjusted to the score and the risk level and clamped to at most 1.0;
    and its expected value is the midpoint of the tier's minimum and
    maximum values multiplied by that potential. *)
Theorem C2_expectedValue_is_midpoint_times_potential (userProfile : UserProfile)
  (availableChests : list string) (chest : Chest) :
  chest ∈ chests (optimize userProfile availableChests) ->
  exists config,
    getGamificationConfigs (type chest) = Some (TierConfig config)
    /\ potential chest = Math_min 1.0 (adjustedRate userProfile (successRate config))
    /\ ge 1.0 (potential chest) = true
    /\ expectedValue chest
       = ((minValue config + maxValue config) / 2 * potential chest)%float.
Proof.
  intros Hin.
  destruct (optimize_recommended _ _ _ Hin) as (data & config & Hconfig & -> & -> & Hrec).
  cbn [type potential expectedValue toChest fst snd] in *.
  destruct config as [config |];
    [| by rewrite inherited_not_recommended in Hrec].
  exists config. split; [done |].
  destruct (tier_potential userProfile config) as (Hp & Hev & Hle);
    [by eapply getGamificationConfigs_tier | done].
Qed.

(** C2 on the distribution for the user of middling score and risk who
    is offered the three tiers: gold comes first, with potential 0.5 and
    expected value (25 + 100) / 2 * 0.5. *)
Lemma C2_gold_witness :
  exists config,
    getGamificationConfigs "gold" = Some (TierConfig config)
    /\ 0.5%float = Math_min 1.0 (adjustedRate middlingProfile (successRate config))
    /\ ge 1.0 0.5 = true
    /\ 31.25%float = ((minValue config + maxValue config) / 2 * 0.5)%float.
Proof.
  apply (C2_expectedValue_is_midpoint_times_potential middlingProfile
           ["silver"; "gold"; "platinum"]
           {| type := "gold"; quantity := 1; potential := 0.5; expectedValue := 31.25 |}).
  vm_compute. left.
Defined.

(** *** Order of the distribution *)

(** Every entry of the distribution has a potential above 0.3. *)
Lemma optimize_potential_above_threshold (userProfile : UserProfile)
  (availableChests : list string) (chest : Chest) :
  chest ∈ chests (optimize userProfile availableChests) ->
  gt (potential chest) 0.3 = true.
Proof.
  intros Hin.
  destruct (optimize_recommended _ _ _ Hin) as (data & config & _ & _ & -> & Hrec).
  exact Hrec.
Qed.

Ltac split_profile userProfile :=
  destruct (gt (behaviorScore userProfile) 80), (lt (behaviorScore userProfile) 40),
    (String.eqb (riskLevel userProfile) "low"),
    (String.eqb (riskLevel userProfile) "very_high").

Ltac split_tier H :=
  apply elem_of_cons in H as [-> | H];
  [| apply elem_of_cons in H as [-> | H];
     [| apply list_elem_of_singleton in H as ->]].

(** On the entries of the three tiers the comparator is a total order. *)
Lemma tierEntries_compared (userProfile : UserProfile) (x y : string * ChestPotential) :
  x ∈ tierEntries userProfile -> y ∈ tierEntries userProfile ->
  if order_lt0 byExpectedValueDesc y x
  then ge (cp_expectedValue y.2) (cp_expectedValue x.2) = true
  else ge (cp_expectedValue x.2) (cp_expectedValue y.2) = true.
Proof.
  unfold tierEntries. intros Hx Hy. split_tier Hx; split_tier Hy;
    unfold order_lt0, byExpectedValueDesc, chestPotential;
    cbn [snd cp_expectedValue];
    split_profile userProfile; vm_compute; reflexivity.
Qed.

Lemma tierEntries_transitive (userProfile : UserProfile) (x y z : string * ChestPotential) :
  x ∈ tierEntries userProfile -> y ∈ tierEntries userProfile ->
  z ∈ tierEntries userProfile ->
  ge (cp_expectedValue x.2) (cp_expectedValue y.2) = true ->
  ge (cp_expectedValue y.2) (cp_expectedValue z.2) = true ->
  ge (cp_expectedValue x.2) (cp_expectedValue z.2) = true.
Proof.
  unfold tierEntries. intros Hx Hy Hz. split_tier Hx; split_tier Hy; split_tier Hz;
    unfold chestPotential; cbn [snd cp_expectedValue];
    split_profile userProfile; vm_compute; congruence.
Qed.

#[local] Instance worthAtLeast_trans (userProfile : UserProfile) :
  Transitive (worthAtLeast userProfile).
Proof.
  intros x y z (Hx & Hy & Hxy) (_ & Hz & Hyz).
  split; [done |]. split; [done |]. by eapply (tierEntries_transitive userProfile x y z).
Qed.

Lemma getGamificationConfigs_own (userProfile : UserProfile) (chestType : string)
  (config : ConfigValue) :
  getGamificationConfigs chestType = Some config ->
  inherited chestType = false ->
  (chestType, chestPotential userProfile config) ∈ tierEntries userProfile.
Proof.
  unfold getGamificationConfigs, tierEntries.
  destruct (String.eqb_spec chestType "silver") as [-> |];
    [intros [= <-] _; left |].
  destruct (String.eqb_spec chestType "gold") as [-> |];
    [intros [= <-] _; right; left |].
  destruct (String.eqb_spec chestType "platinum") as [-> |];
    [intros [= <-] _; right; right; left |].
  by destruct (inherited chestType).
Qed.

Lemma ForallOrdPairs_of_Forall {X : Type} (P : X -> Prop) (Q : X -> X -> Prop)
  (l : list X) :
  (forall x y, P x -> P y -> Q x y) -> Forall P l -> ForallOrdPairs Q l.
Proof.
  intros HQ. induction 1 as [| x l Hx Hl IH]; constructor; [| done].
  eapply Forall_impl; [exact Hl |]. intros y Hy. by apply HQ.
Qed.

Lemma StronglySorted_filter {X : Type} (R : relation X) (keep : X -> bool) (l : list X) :
  StronglySorted R l -> StronglySorted R (List.filter keep l).
Proof.
  induction 1 as [| x l Hl IH Hx]; cbn; [constructor |].
  destruct (keep x); [| done]. constructor; [done |].
  apply Forall_forall. intros y Hy.
  apply list_elem_of_In, filter_In in Hy as [Hy _].
  rewrite Forall_forall in Hx. apply Hx. by apply list_elem_of_In.
Qed.

(** When no requested chest type names a member inherited from
    [Object.prototype], the distribution is ordered by non-increasing
    expected value. *)
Lemma optimize_sorted_without_inherited_names (userProfile : UserProfile)
  (availableChests : list string) :
  Forall (fun chestType => inherited chestType = false) availableChests ->
  byDescendingValue (chests (optimize userProfile availableChests)).
Proof.
  intros Hown. unfold byDescendingValue, optimize. cbn [chests].
  rewrite optimizeDistribution_filter.
  set (potentials := calculateChestPotentials _ _ _).
  assert (Htiers : Forall (fun e => e ∈ tierEntries userProfile) potentials).
  { apply Forall_forall. intros [k data] He.
    apply calculateChestPotentials_entry in He as [Hk [config [Hconfig ->]]].
    rewrite Forall_forall in Hown. by apply getGamificationConfigs_own; [| apply Hown]. }
  eapply (StronglySorted_map (worthAtLeast userProfile)); [by intros x y (_ & _ & H) |].
  apply StronglySorted_filter, Array_sort_sorted; [apply worthAtLeast_trans |].
  eapply ForallOrdPairs_of_Forall; [| exact Htiers].
  intros x y Hx Hy. unfold agrees.
  pose proof (tierEntries_compared userProfile x y Hx Hy) as H.
  by destruct (order_lt0 byExpectedValueDesc y x).
Qed.

(** C4 fails on the engine: for the user of middling score and risk and
    the chest types ["silver"; "toString"; "gold"], the distribution is
    silver (expected value 21) followed by gold (expected value 31.25),
    in increasing order of expected value.  "toString" names a member
    every object inherits, so [configs["toString"]] is not [undefined]
    and the name gets an entry whose expected value is not a number; the
    comparator answers NaN on it, the sort leaves the three entries where
    they are, and the filter then drops the middle one. *)
Theorem C4_unsorted_with_inherited_name :
  let distribution := chests (optimize middlingProfile chestsWithInheritedName) in
  map (fun chest => (type chest, expectedValue chest)) distribution
  = [("silver"%string, 21%float); ("gold"%string, 31.25%float)]
  /\ Forall (fun chest => gt (potential chest) 0.3 = true) distribution
  /\ ~ byDescendingValue distribution.
Proof.
  split; [vm_compute; reflexivity |]. split.
  - apply Forall_forall. intros chest. apply optimize_potential_above_threshold.
  - intros H. vm_compute in H.
    apply StronglySorted_cons in H as [H _].
    apply Forall_cons in H as [H _]. discriminate.
Qed.

End ChestDistribution.


(** ** The engine on small inputs *)

Section Examples.
Import JS Scenarios.

(** Five sessions starting at 20h, 21h, 5h, 5h and 21h (UTC): 5h and 21h
    occur twice and come first, the lower hour before the higher. *)
Example peakHours_tie :
  BehaviorAnalyzer.identifyPeakHours utc
    (map (fun hour => BehaviorAnalyzer.Build_SessionRecord (DateAt (hour * msPerHour)) 30)
       [20; 21; 5; 5; 21]%Z)
  = [KHour 5; KHour 21; KHour 20].
Proof. vm_compute. reflexivity. Qed.

(** Sorting numbers in descending order, as the engine's comparators do. *)
Example Array_sort_descending :
  Array_sort (order_lt0 (fun a b => (b - a)%float)) [3; 1; 4; 1; 5; 9; 2; 6]%float
  = [9; 6; 5; 4; 3; 2; 1; 1]%float.
Proof. vm_compute. reflexivity. Qed.

(** The three tiers offered to the test suite's VIP user (score 100,
    risk level low): platinum, gold and silver, with 1, 2 and 3 chests. *)
Example optimize_vip :
  map (fun chest => (ChestOptimizer.type chest, ChestOptimizer.quantity chest))
    (ChestOptimizer.chests
       (ChestOptimizer.optimize
          {| ChestOptimizer.behaviorScore := 100;
             ChestOptimizer.riskLevel := "low";
             ChestOptimizer.history_length := NaN |}
          ["silver"; "gold"; "platinum"]))
  = [("platinum", 1); ("gold", 2); ("silver", 3)].
Proof. vm_compute. reflexivity. Qed.

(** A chest type that names an inherited member makes [calculate] throw. *)
Example calculate_inherited_name :
  RewardCalculator.calculate (fun _ => 0.5%float) vipSignals "constructor"
  = Throw TypeError.
Proof. vm_compute. reflexivity. Qed.

End Examples.


(** * Further properties of the engine *)

(** ** The order of numbers *)

Section NumberOrder.
Import JS.

Ltac compare_cases :=
  repeat match goal with
         | |- context [Z.compare ?a ?b] => destruct (Z.compare_spec a b)
         | H : context [Z.compare ?a ?b] |- _ => destruct (Z.compare_spec a b)
         | |- context [Pos.compare_cont Eq ?a ?b] =>
             change (Pos.compare_cont Eq a b) with (Pos.compare a b);
             destruct (Pos.compare_spec a b)
         | H : context [Pos.compare_cont Eq ?a ?b] |- _ =>
             change (Pos.compare_cont Eq a b) with (Pos.compare a b) in H;
             destruct (Pos.compare_spec a b)
         end.

Ltac compare_floats :=
  unfold SFleb, SFltb, SFcompare;
  repeat match goal with
         | x : spec_float |- _ => destruct x as [[] | [] | | [] ? ?]
         end;
  cbv beta iota; try congruence; try reflexivity;
  compare_cases; cbn; try congruence; try lia.

Lemma SFleb_trans (x y z : spec_float) :
  SFleb x y = true -> SFleb y z = true -> SFleb x z = true.
Proof. compare_floats. Qed.

Lemma SFltb_leb_trans (x y z : spec_float) :
  SFltb x y = true -> SFleb y z = true -> SFltb x z = true.
Proof. compare_floats. Qed.

Lemma SFleb_ltb_trans (x y z : spec_float) :
  SFleb x y = true -> SFltb y z = true -> SFltb x z = true.
Proof. compare_floats. Qed.

Lemma SFltb_not_leb (x y : spec_float) : SFltb x y = true -> SFleb y x = false.
Proof. compare_floats. Qed.

Lemma SFltb_leb (x y : spec_float) : SFltb x y = true -> SFleb x y = true.
Proof. compare_floats. Qed.

(** [a >= b] and [b >= c] give [a >= c]. *)
Lemma ge_trans (a b c : number) : ge a b = true -> ge b c = true -> ge a c = true.
Proof.
  unfold ge. rewrite !leb_spec. intros H1 H2. by eapply SFleb_trans.
Qed.

(** [a < b] and [b <= c] give [a < c]. *)
Lemma lt_le_trans (a b c : number) :
  lt a b = true -> PrimFloat.leb b c = true -> lt a c = true.
Proof.
  unfold lt. rewrite !ltb_spec, leb_spec. apply SFltb_leb_trans.
Qed.

(** [a <= b] and [b < c] give [a < c]. *)
Lemma le_lt_trans (a b c : number) :
  PrimFloat.leb a b = true -> lt b c = true -> lt a c = true.
Proof.
  unfold lt. rewrite !ltb_spec, leb_spec. apply SFleb_ltb_trans.
Qed.

(** [a < b] excludes [a >= b]. *)
Lemma lt_not_ge (a b : number) : lt a b = true -> ge a b = false.
Proof.
  unfold lt, ge. rewrite ltb_spec, leb_spec. apply SFltb_not_leb.
Qed.

(** [a < b] gives [a <= b]. *)
Lemma lt_le (a b : number) : lt a b = true -> PrimFloat.leb a b = true.
Proof.
  unfold lt. rewrite ltb_spec, leb_spec. apply SFltb_leb.
Qed.

(** [a > b] excludes [a < b]. *)
Lemma gt_not_lt (a b : number) : gt a b = true -> lt a b = false.
Proof.
  intros H. destruct (lt a b) eqn:E; [| done].
  apply lt_le in E. apply lt_not_ge in H. unfold ge in H. congruence.
Qed.

End NumberOrder.


(** ** The analysis as a whole *)

Section AnalysisFacts.
Import JS BehaviorAnalyzer Engine Scenarios.

Ltac split_increments :=
  repeat match goal with
         | |- context [bump ?c _ _] =>
             lazymatch c with
             | true => fail
             | false => fail
             | _ => let b := fresh "b" in generalize c; intros b; destruct b
             end
         end.

Ltac find_member := repeat first [apply list_elem_of_here | apply list_elem_of_further].

Lemma calculateBehaviorScore_values (analyses : Analyses) :
  calculateBehaviorScore analyses ∈ possibleScores.
Proof.
  unfold calculateBehaviorScore, possibleScores.
  split_increments; vm_compute; find_member.
Qed.

(** Each of the possible scores is at least 50 and is not given the risk
    level [very_high]. *)
Lemma possibleScores_base (s : number) :
  s ∈ possibleScores ->
  ge s 50 = true /\ determineRiskLevel s <> very_high.
Proof.
  intros Hin. unfold possibleScores in Hin.
  repeat (apply elem_of_cons in Hin as [-> | Hin];
          [vm_compute; split; [reflexivity | discriminate] |]).
  by apply elem_of_nil in Hin.
Qed.

(** X1: the score [analyze] returns is one of 50, 55, ..., 100: no
    increment is negative, so the score never falls below the base 50,
    and the risk level is never [very_high]. *)
Theorem analyze_score_at_least_base (tzOffset : Z -> Z) (now1 now2 : Z)
  (userData : UserData) :
  let r := analyze tzOffset now1 now2 userData in
  score r ∈ possibleScores
  /\ ge (score r) 50 = true
  /\ BehaviorAnalyzer.riskLevel r <> very_high.
Proof.
  intros r. subst r. unfold analyze.
  cbn [score BehaviorAnalyzer.riskLevel].
  match goal with |- context [calculateBehaviorScore ?a] =>
    pose proof (calculateBehaviorScore_values a) as Hin
  end.
  split; [exact Hin |]. by apply possibleScores_base.
Qed.

(** X2: the risk level never rises with the score: of two scores, the
    higher one gets a risk level that is as safe or safer. *)
Theorem determineRiskLevel_monotone (score1 score2 : number) :
  ge score2 score1 = true ->
  riskRank (determineRiskLevel score2) <= riskRank (determineRiskLevel score1).
Proof.
  intros Hle. unfold determineRiskLevel.
  assert (H80 : ge score1 80 = true -> ge score2 80 = true)
    by (intros H; by apply (ge_trans score2 score1 80)).
  assert (H60 : ge score1 60 = true -> ge score2 60 = true)
    by (intros H; by apply (ge_trans score2 score1 60)).
  assert (H40 : ge score1 40 = true -> ge score2 40 = true)
    by (intros H; by apply (ge_trans score2 score1 40)).
  destruct (ge score1 80), (ge score1 60), (ge score1 40),
    (ge score2 80), (ge score2 60), (ge score2 40); cbn;
    first [lia | by specialize (H80 eq_refl) | by specialize (H60 eq_refl)
          | by specialize (H40 eq_refl)].
Qed.

Lemma determineRiskLevel_monotone_witness :
  riskRank (determineRiskLevel 85) <= riskRank (determineRiskLevel 55).
Proof. apply determineRiskLevel_monotone. vm_compute. reflexivity. Defined.

(** X3: the activity level never rises with the days since the last
    activity: of two users, the one whose last activity is older is as
    active or less (the account ages play no part). *)
Theorem calculateActivityLevel_monotone (age1 age2 days1 days2 : number) :
  PrimFloat.leb days1 days2 = true ->
  activityRank (calculateActivityLevel age1 days1)
  <= activityRank (calculateActivityLevel age2 days2).
Proof.
  intros Hle. unfold calculateActivityLevel.
  assert (H1 : lt days2 1 = true -> lt days1 1 = true)
    by (intros H; by apply (le_lt_trans days1 days2 1)).
  assert (H7 : lt days2 7 = true -> lt days1 7 = true)
    by (intros H; by apply (le_lt_trans days1 days2 7)).
  assert (H30 : lt days2 30 = true -> lt days1 30 = true)
    by (intros H; by apply (le_lt_trans days1 days2 30)).
  destruct (lt days2 1), (lt days2 7), (lt days2 30),
    (lt days1 1), (lt days1 7), (lt days1 30); cbn;
    first [lia | by specialize (H1 eq_refl) | by specialize (H7 eq_refl)
          | by specialize (H30 eq_refl)].
Qed.

Lemma calculateActivityLevel_monotone_witness :
  activityRank (calculateActivityLevel 100 0.5)
  <= activityRank (calculateActivityLevel 100 12).
Proof. apply calculateActivityLevel_monotone. vm_compute. reflexivity. Defined.

Lemma includes_elem_of (patterns : list Pattern) (tag : Pattern) :
  includes patterns tag = true <-> tag ∈ patterns.
Proof.
  unfold includes. rewrite existsb_exists. split.
  - intros [p [Hin Heq]]. apply list_elem_of_In in Hin.
    by destruct tag, p.
  - intros Hin. exists tag. split; [by apply list_elem_of_In | by destruct tag].
Qed.

Lemma inactive_user_days (analyses : Analyses) :
  inactive_user ∈ identifyPatterns analyses ->
  gt (daysSinceLastActivity (temporalAnalysis analyses)) 30 = true.
Proof.
  intros Hin. apply includes_elem_of in Hin. revert Hin.
  unfold identifyPatterns.
  destruct (gt (daysSinceLastActivity (temporalAnalysis analyses)) 30); [done |].
  repeat match goal with
         | |- context [push_if ?c _ _] =>
             lazymatch c with
             | true => fail
             | false => fail
             | _ => let b := fresh "b" in generalize c; intros b; destruct b
             end
         end; cbn; discriminate.
Qed.

(** X4: a user tagged [inactive_user] has the activity level [low], and
    earns neither of the two recency increments of the score. *)
Theorem inactive_user_is_low_activity (tzOffset : Z -> Z) (now1 now2 : Z)
  (userData : UserData) :
  let r := analyze tzOffset now1 now2 userData in
  inactive_user ∈ BehaviorAnalyzer.patterns r ->
  activityLevel (temporalAnalysis (details r)) = activity_low
  /\ lt (daysSinceLastActivity (temporalAnalysis (details r))) 7 = false.
Proof.
  intros r Hin. subst r. unfold analyze in *.
  cbn [BehaviorAnalyzer.patterns details temporalAnalysis] in *.
  apply inactive_user_days in Hin. cbn [temporalAnalysis] in Hin.
  unfold analyzeTemporalPatterns in *.
  cbn [daysSinceLastActivity activityLevel] in *.
  match type of Hin with gt ?d 30 = true => generalize dependent d end.
  intros d Hd.
  assert (H30 : lt d 30 = false) by by apply gt_not_lt.
  assert (H7 : lt d 7 = false).
  { destruct (lt d 7) eqn:E; [| done].
    assert (lt d 30 = true) by (by apply (lt_le_trans d 7 30)). congruence. }
  assert (H1 : lt d 1 = false).
  { destruct (lt d 1) eqn:E; [| done].
    assert (lt d 30 = true) by (by apply (lt_le_trans d 1 30)). congruence. }
  unfold calculateActivityLevel. by rewrite H1, H7, H30.
Qed.

(** X4 for a user without history last active sixty days before the
    analysis. *)
Lemma inactive_user_witness :
  let r := analyze utc vipNow vipNow
             (emptyHistory (DateAt 1735689600000) (DateAt (vipNow - 60 * day))) in
  activityLevel (temporalAnalysis (details r)) = activity_low
  /\ lt (daysSinceLastActivity (temporalAnalysis (details r))) 7 = false.
Proof.
  apply (inactive_user_is_low_activity utc vipNow vipNow). vm_compute.
  find_member.
Defined.


(** X6: a user with at most one deposit has the volatility 0, which earns
    the low-volatility increment: the score is at least 55. *)
Theorem few_deposits_score (tzOffset : Z -> Z) (now1 now2 : Z) (userData : UserData) :
  length (depositHistory userData) <= 1 ->
  volatility (depositAnalysis (details (analyze tzOffset now1 now2 userData))) = 0%float
  /\ ge (score (analyze tzOffset now1 now2 userData)) 55 = true.
Proof.
  intros Hlen. unfold analyze. cbn [score details depositAnalysis].
  assert (Hvol : volatility (analyzeDeposits (depositHistory userData)) = 0%float).
  { destruct (depositHistory userData) as [| d [| d' rest]]; [done | done |].
    cbn in Hlen. lia. }
  split; [done |].
  unfold calculateBehaviorScore. cbn [depositAnalysis]. rewrite Hvol.
  change (lt 0 0.5) with true.
  split_increments; vm_compute; reflexivity.
Qed.

Lemma few_deposits_witness :
  volatility (depositAnalysis
                (details (analyze utc vipNow vipNow
                            (emptyHistory InvalidDate InvalidDate)))) = 0%float
  /\ ge (score (analyze utc vipNow vipNow (emptyHistory InvalidDate InvalidDate))) 55
     = true.
Proof. apply few_deposits_score. cbn. lia. Defined.

End AnalysisFacts.


(** ** The chest distribution as a whole *)

Section ChestFacts.
Import JS Engine ChestOptimizer Scenarios.

Ltac split_profile userProfile :=
  destruct (gt (behaviorScore userProfile) 80), (lt (behaviorScore userProfile) 40),
    (String.eqb (riskLevel userProfile) "low"),
    (String.eqb (riskLevel userProfile) "very_high").

(** *** Unknown chest types *)

Lemma getGamificationConfigs_unknown (chestType : string) :
  knownTier chestType || inherited chestType = false ->
  getGamificationConfigs chestType = None.
Proof.
  unfold getGamificationConfigs, knownTier.
  destruct (String.eqb chestType "silver"), (String.eqb chestType "gold"),
    (String.eqb chestType "platinum"), (inherited chestType); done.
Qed.

Lemma fold_left_filter_skipped {X Y : Type} (f : Y -> X -> Y) (keep : X -> bool)
  (l : list X) (y : Y) :
  (forall y x, keep x = false -> f y x = y) ->
  fold_left f (List.filter keep l) y = fold_left f l y.
Proof.
  intros Hskip. revert y. induction l as [| x l IH]; intros y; cbn; [done |].
  destruct (keep x) eqn:E; cbn; [apply IH |]. rewrite (Hskip y x E). apply IH.
Qed.

(** X7: chest types the engine does not know are skipped without a
    trace: the result is the one for the request with them removed. *)
Theorem optimize_skips_unknown (userProfile : UserProfile) (availableChests : list string) :
  optimize userProfile availableChests
  = optimize userProfile
      (List.filter (fun chestType => knownTier chestType || inherited chestType)
         availableChests).
Proof.
  unfold optimize, calculateChestPotentials.
  rewrite (fold_left_filter_skipped _
             (fun chestType => knownTier chestType || inherited chestType));
    [done |].
  intros potentials chestType Hunknown.
  by rewrite getGamificationConfigs_unknown.
Qed.

(** *** The entries of the object [potentials] *)

Lemma entries_set_keys {V : Type} (key : string) (v : V) (entries : list (string * V))
  (k : string) :
  k ∈ map fst (entries_set key v entries) -> k = key \/ k ∈ map fst entries.
Proof.
  induction entries as [| [k' w] rest IH]; cbn.
  - intros H. apply list_elem_of_singleton in H. by left.
  - destruct (String.eqb key k'); cbn; [by right |].
    intros H. apply elem_of_cons in H as [-> | H]; [right; left |].
    destruct (IH H) as [-> | Hin]; [by left | right; by right].
Qed.

Lemma entries_set_NoDup {V : Type} (key : string) (v : V) (entries : list (string * V)) :
  NoDup (map fst entries) -> NoDup (map fst (entries_set key v entries)).
Proof.
  induction entries as [| [k' w] rest IH]; cbn; intros Hnd.
  - apply NoDup_singleton.
  - apply NoDup_cons in Hnd as [Hk' Hrest].
    destruct (String.eqb_spec key k') as [-> | Hne]; cbn.
    + by apply NoDup_cons.
    + apply NoDup_cons. split; [| by apply IH].
      intros Hin. apply entries_set_keys in Hin as [-> | Hin]; done.
Qed.

Lemma entries_set_same {V : Type} (key : string) (v : V) (entries : list (string * V)) :
  (key, v) ∈ entries_set key v entries.
Proof.
  induction entries as [| [k' w] rest IH]; cbn; [left |].
  destruct (String.eqb_spec key k') as [<- | Hne]; [left | by right].
Qed.

Lemma entries_set_other {V : Type} (key : string) (v : V) (entries : list (string * V))
  (e : string * V) :
  e ∈ entries -> e.1 <> key -> e ∈ entries_set key v entries.
Proof.
  intros Hin Hne. induction entries as [| [k' w] rest IH]; cbn;
    [by apply elem_of_nil in Hin |].
  apply elem_of_cons in Hin as [-> | Hin].
  - cbn in Hne. destruct (String.eqb_spec key k') as [-> | _]; [done | left].
  - destruct (String.eqb key k'); right; [done | by apply IH].
Qed.

Lemma calculateChestPotentials_NoDup (userProfile : UserProfile)
  (availableChests : list string) (configs : string -> option ConfigValue) :
  NoDup (map fst (calculateChestPotentials userProfile availableChests configs)).
Proof.
  unfold calculateChestPotentials.
  assert (Hnil : NoDup (map fst (@nil (string * ChestPotential)))) by constructor.
  revert Hnil. generalize (@nil (string * ChestPotential)) as potentials.
  induction availableChests as [| id ids IH]; intros potentials Hnd; cbn; [done |].
  apply IH. destruct (configs id); [| done].
  unfold potentials_set. destruct (String.eqb id "__proto__"); [done |].
  by apply entries_set_NoDup.
Qed.

Lemma calculateChestPotentials_requested (userProfile : UserProfile)
  (availableChests : list string) (configs : string -> option ConfigValue)
  (chestType : string) (config : ConfigValue) :
  chestType ∈ availableChests ->
  configs chestType = Some config ->
  chestType <> "__proto__"%string ->
  (chestType, chestPotential userProfile config)
    ∈ calculateChestPotentials userProfile availableChests configs.
Proof.
  intros Hin Hconfig Hproto. unfold calculateChestPotentials.
  set (entry := (chestType, chestPotential userProfile config)).
  assert (Hstart : entry ∈ @nil (string * ChestPotential) \/ chestType ∈ availableChests)
    by by right.
  revert Hstart. clear Hin. generalize (@nil (string * ChestPotential)) as potentials.
  induction availableChests as [| id ids IH]; intros potentials Hstart; cbn.
  - destruct Hstart as [H | H]; [done | by apply elem_of_nil in H].
  - apply IH. destruct (String.eqb_spec id chestType) as [-> | Hne].
    + left. rewrite Hconfig. unfold potentials_set.
      destruct (String.eqb_spec chestType "__proto__"); [done |].
      apply entries_set_same.
    + destruct Hstart as [H | H].
      * left. destruct (configs id); [| done]. unfold potentials_set.
        destruct (String.eqb id "__proto__"); [done |].
        apply entries_set_other; [done | cbn; congruence].
      * right. apply elem_of_cons in H as [-> | H]; done.
Qed.

Lemma getGamificationConfigs_cases (chestType : string) (config : ChestConfig) :
  getGamificationConfigs chestType = Some (TierConfig config) ->
  (chestType = "silver"%string /\ config = silver)
  \/ (chestType = "gold"%string /\ config = gold)
  \/ (chestType = "platinum"%string /\ config = platinum).
Proof.
  unfold getGamificationConfigs.
  destruct (String.eqb_spec chestType "silver"); [intros [= <-]; by left |].
  destruct (String.eqb_spec chestType "gold"); [intros [= <-]; by right; left |].
  destruct (String.eqb_spec chestType "platinum"); [intros [= <-]; by right; right |].
  by destruct (inherited chestType).
Qed.

(** Where an entry of the distribution comes from. *)
Lemma optimize_entry (userProfile : UserProfile) (availableChests : list string)
  (chest : Chest) :
  chest ∈ chests (optimize userProfile availableChests) ->
  type chest ∈ availableChests
  /\ exists config,
       getGamificationConfigs (type chest) = Some (TierConfig config)
       /\ chest = toChest (type chest, chestPotential userProfile (TierConfig config))
       /\ recommended (type chest, chestPotential userProfile (TierConfig config)) = true.
Proof.
  unfold optimize. cbn [chests]. rewrite optimizeDistribution_filter.
  intros Hin. apply list_elem_of_In, in_map_iff in Hin as [[k data] [<- Hin]].
  apply filter_In in Hin as [Hin Hrec].
  apply list_elem_of_In in Hin. rewrite Array_sort_Permutation in Hin.
  apply calculateChestPotentials_entry in Hin as [Hk [config [Hconfig ->]]].
  cbn [toChest type fst]. split; [done |].
  destruct config as [config |].
  - by exists config.
  - unfold recommended in Hrec. cbn [snd] in Hrec.
    by rewrite inherited_not_recommended in Hrec.
Qed.

(** A requested tier whose potential is above 0.3 is in the
    distribution. *)
Lemma requested_tier_recommended (userProfile : UserProfile)
  (availableChests : list string) (chestType : string) (config : ChestConfig) :
  getGamificationConfigs chestType = Some (TierConfig config) ->
  chestType ∈ availableChests ->
  gt (cp_potential (chestPotential userProfile (TierConfig config))) 0.3 = true ->
  exists chest,
    chest ∈ chests (optimize userProfile availableChests)
    /\ type chest = chestType.
Proof.
  intros Hconfig Hreq Hrec.
  exists (toChest (chestType, chestPotential userProfile (TierConfig config))).
  split; [| done].
  unfold optimize. cbn [chests]. rewrite optimizeDistribution_filter.
  apply list_elem_of_In, in_map, filter_In. split; [| exact Hrec].
  apply list_elem_of_In. rewrite Array_sort_Permutation.
  apply calculateChestPotentials_requested; [done | done |].
  intros ->. discriminate.
Qed.

(** X8: a tier is in the distribution exactly when it was requested and
    its potential for the profile is above 0.3.  What else is requested,
    how often and in which order makes no difference. *)
Theorem tier_in_distribution (userProfile : UserProfile) (availableChests : list string)
  (chestType : string) (config : ChestConfig) :
  getGamificationConfigs chestType = Some (TierConfig config) ->
  (exists chest,
      chest ∈ chests (optimize userProfile availableChests)
      /\ type chest = chestType)
  <-> chestType ∈ availableChests
      /\ gt (cp_potential (chestPotential userProfile (TierConfig config))) 0.3 = true.
Proof.
  intros Hconfig. split.
  - intros (chest & Hin & <-).
    apply optimize_entry in Hin as (Hreq & config' & Hconfig' & _ & Hrec).
    rewrite Hconfig in Hconfig'. injection Hconfig' as <-. by split.
  - intros [Hreq Hrec]. by apply (requested_tier_recommended _ _ _ config).
Qed.

Lemma tier_in_distribution_witness :
  (exists chest,
      chest ∈ chests (optimize middlingProfile ["gold"; "gold"; "bronze"])
      /\ type chest = "gold"%string)
  <-> "gold"%string ∈ ["gold"; "gold"; "bronze"]%string
      /\ gt (cp_potential (chestPotential middlingProfile (TierConfig gold))) 0.3 = true.
Proof. apply tier_in_distribution. reflexivity. Defined.

(** X9: silver is recommended to every profile that is offered it. *)
Theorem silver_always_recommended (userProfile : UserProfile)
  (availableChests : list string) :
  "silver"%string ∈ availableChests ->
  exists chest,
    chest ∈ chests (optimize userProfile availableChests)
    /\ type chest = "silver"%string.
Proof.
  intros Hreq.
  apply (requested_tier_recommended userProfile availableChests "silver" silver);
    [done | done |].
  unfold chestPotential. cbn [cp_potential].
  split_profile userProfile; vm_compute; reflexivity.
Qed.

Lemma silver_always_recommended_witness :
  exists chest,
    chest ∈ chests (optimize middlingProfile chestsWithInheritedName)
    /\ type chest = "silver"%string.
Proof. apply silver_always_recommended. left. Defined.



(** *** Shape of the distribution *)

Lemma NoDup_map_filter {X Y : Type} (f : X -> Y) (keep : X -> bool) (l : list X) :
  NoDup (map f l) -> NoDup (map f (List.filter keep l)).
Proof.
  induction l as [| x l IH]; cbn; intros Hnd; [done |].
  apply NoDup_cons in Hnd as [Hx Hl].
  destruct (keep x); cbn; [| by apply IH].
  apply NoDup_cons. split; [| by apply IH].
  intros Hin. apply Hx.
  apply list_elem_of_In, in_map_iff in Hin as [y [Hy Hin]].
  apply filter_In in Hin as [Hin _].
  apply list_elem_of_In, in_map_iff. by exists y.
Qed.

(** X11: the distribution holds each tier at most once, however often
    the request names it: at most three entries, each for a requested
    chest type that is one of silver, gold and platinum. *)
Theorem distribution_distinct_tiers (userProfile : UserProfile)
  (availableChests : list string) :
  let distribution := chests (optimize userProfile availableChests) in
  NoDup (map type distribution)
  /\ Forall (fun chest => type chest ∈ availableChests /\ knownTier (type chest) = true)
       distribution
  /\ length distribution <= 3.
Proof.
  intros distribution.
  assert (Hentries : Forall (fun chest => type chest ∈ availableChests
                                          /\ knownTier (type chest) = true) distribution).
  { apply Forall_forall. intros chest Hin.
    apply optimize_entry in Hin as (Hreq & config & Hconfig & _ & _).
    split; [done |].
    by apply getGamificationConfigs_cases in Hconfig
      as [[-> _] | [[-> _] | [-> _]]]. }
  assert (Hnd : NoDup (map type distribution)).
  { subst distribution. unfold optimize. cbn [chests].
    rewrite optimizeDistribution_filter, map_map.
    change (fun x => type (toChest x)) with (@fst string ChestPotential).
    apply NoDup_map_filter.
    rewrite (Permutation_map fst (Array_sort_Permutation _ _)).
    apply calculateChestPotentials_NoDup. }
  split; [done |]. split; [done |].
  rewrite <- (length_map type).
  change 3 with (length ["silver"; "gold"; "platinum"]%string).
  apply submseteq_length, NoDup_submseteq; [done |].
  intros t Ht. apply list_elem_of_In, in_map_iff in Ht as [chest [<- Hin]].
  rewrite Forall_forall in Hentries.
  destruct (Hentries chest) as [_ Hknown]; [by apply list_elem_of_In |].
  unfold knownTier in Hknown.
  destruct (String.eqb_spec (type chest) "silver") as [-> |]; [left |].
  destruct (String.eqb_spec (type chest) "gold") as [-> |]; [right; left |].
  destruct (String.eqb_spec (type chest) "platinum") as [-> |]; [| done].
  right; right; left.
Qed.

(** X12: every entry of the distribution offers one, two or three chests;
    platinum is offered once, gold at most twice, and three chests go
    only to silver for a score above 80. *)
Theorem distribution_quantities (userProfile : UserProfile)
  (availableChests : list string) (chest : Chest) :
  chest ∈ chests (optimize userProfile availableChests) ->
  1 <= quantity chest <= 3
  /\ (type chest = "platinum"%string -> quantity chest = 1)
  /\ (type chest = "gold"%string -> quantity chest <= 2)
  /\ (quantity chest = 3 ->
      type chest = "silver"%string /\ gt (behaviorScore userProfile) 80 = true).
Proof.
  intros Hin.
  apply optimize_entry in Hin as (_ & config & Hconfig & -> & _).
  cbn [type quantity toChest fst snd].
  apply getGamificationConfigs_cases in Hconfig
    as [[-> ->] | [[-> ->] | [-> ->]]];
    unfold calculateOptimalQuantity, chestPotential; cbn [cp_potential];
    split_profile userProfile; vm_compute;
    repeat split; try lia; try discriminate; try reflexivity.
Qed.

Lemma distribution_quantities_witness :
  let chest := {| type := "silver"; quantity := 2; potential := 0.7; expectedValue := 21 |} in
  1 <= quantity chest <= 3
  /\ (type chest = "platinum"%string -> quantity chest = 1)
  /\ (type chest = "gold"%string -> quantity chest <= 2)
  /\ (quantity chest = 3 ->
      type chest = "silver"%string /\ gt (behaviorScore middlingProfile) 80 = true).
Proof.
  apply (distribution_quantities middlingProfile ["silver"; "gold"; "platinum"]).
  vm_compute. right. left.
Defined.

(** X13: the confidence is at least 0.5 and stays below 1: its largest
    value is 0.5 + 0.2 + 0.2 + 0.1 as the engine adds them, which is less
    than 1, so that the clamp at 1.0 never applies.  Without a history of
    more than ten entries and a score above 60, a distribution that is
    not empty has the confidence 0.6 exactly. *)
Theorem confidence_range (userProfile : UserProfile) (distribution : list Chest) :
  ge (calculateConfidence userProfile distribution) 0.5 = true
  /\ lt (calculateConfidence userProfile distribution) 1 = true
  /\ (gt (history_length userProfile) 10 = false ->
      gt (behaviorScore userProfile) 60 = false ->
      distribution <> [] ->
      calculateConfidence userProfile distribution = 0.6%float).
Proof.
  unfold calculateConfidence.
  destruct (gt (history_length userProfile) 10), (gt (behaviorScore userProfile) 60),
    distribution as [| chest rest]; cbn [length Nat.ltb Nat.leb];
    vm_compute; repeat split; try reflexivity; try discriminate; try congruence.
Qed.

Lemma confidence_range_witness :
  let distribution := chests (optimize middlingProfile ["silver"; "gold"; "platinum"]) in
  ge (calculateConfidence middlingProfile distribution) 0.5 = true
  /\ lt (calculateConfidence middlingProfile distribution) 1 = true
  /\ (gt (history_length middlingProfile) 10 = false ->
      gt (behaviorScore middlingProfile) 60 = false ->
      distribution <> [] ->
      calculateConfidence middlingProfile distribution = 0.6%float).
Proof. apply confidence_range. Defined.

End ChestFacts.


(** ** The rewards as a whole *)

Section RewardFacts.
Import JS Engine RewardCalculator Scenarios.

Ltac split_activity userActivity :=
  destruct (gt (recentActivity userActivity) 0.8),
    (String.eqb (loyaltyLevel userActivity) "vip"),
    (String.eqb (loyaltyLevel userActivity) "premium"),
    (gt (weeklyVolume userActivity) 1000).

(** X14: whatever the activity signals, the multiplier lies between 1.0
    and 1.6: no bonus is negative, and the loyalty bonuses of vip and
    premium never add up. *)
Theorem bonusMultiplier_range (userActivity : UserActivity) :
  ge (calculateBonusMultiplier userActivity) 1.0 = true
  /\ ge 1.6 (calculateBonusMultiplier userActivity) = true.
Proof.
  unfold calculateBonusMultiplier.
  split_activity userActivity; vm_compute; split; reflexivity.
Qed.

(** X15: a chest type the engine has no table for is rewarded from the
    silver table: the result is the one for "silver", draw for draw. *)
Theorem calculate_falls_back_to_silver (random : nat -> number)
  (userActivity : UserActivity) (chestType : string) :
  knownTier chestType = false ->
  inherited chestType = false ->
  calculate random userActivity chestType = calculate random userActivity "silver".
Proof.
  unfold knownTier, calculate, getBaseRewards, rewardTable.
  destruct (String.eqb chestType "silver"), (String.eqb chestType "gold"),
    (String.eqb chestType "platinum"); try discriminate.
  intros _ ->. reflexivity.
Qed.

Lemma calculate_falls_back_witness :
  calculate (fun _ => 0.5%float) vipSignals "bronze"
  = calculate (fun _ => 0.5%float) vipSignals "silver".
Proof. apply calculate_falls_back_to_silver; reflexivity. Defined.

(** The draws keep some entries of the table and leave them in place. *)
Lemma sample_sublist (random : nat -> number) (n : nat) (table : list Reward) :
  sublist (sample random n table) table.
Proof.
  revert n. induction table as [| reward table IH]; intros n; cbn; [constructor |].
  unfold lt. destruct (PrimFloat.ltb (random n) (probability reward));
    [apply sublist_skip | apply sublist_cons]; apply IH.
Qed.

Lemma rewardTable_cases (chestType : string) (table : list Reward) :
  rewardTable chestType = Some table ->
  table = silver \/ table = gold \/ table = platinum.
Proof.
  unfold rewardTable.
  destruct (String.eqb chestType "silver"); [intros [= <-]; by left |].
  destruct (String.eqb chestType "gold"); [intros [= <-]; by right; left |].
  destruct (String.eqb chestType "platinum"); [intros [= <-]; by right; right |].
  destruct (inherited chestType); [done | intros [= <-]; by left].
Qed.

(** Scaling by a multiplier the engine can compute never lowers a value
    of the tables. *)
Lemma scaled_value_not_lower (userActivity : UserActivity) (table : list Reward)
  (reward : Reward) :
  table = silver \/ table = gold \/ table = platinum ->
  reward ∈ table ->
  ge (value reward * calculateBonusMultiplier userActivity)%float (value reward) = true.
Proof.
  unfold calculateBonusMultiplier.
  intros [-> | [-> | ->]] Hin;
    repeat (apply elem_of_cons in Hin as [-> | Hin];
            [split_activity userActivity; vm_compute; reflexivity |]);
    by apply elem_of_nil in Hin.
Qed.

(** X16: the rewards [calculate] returns are entries of the chest type's
    table, in the order of the table and each at most once, with the
    value multiplied by the bonus multiplier, which never makes it
    smaller than the value in the table; the total is their sum. *)
Theorem calculate_items (random : nat -> number) (userActivity : UserActivity)
  (chestType : string) (rewards : Rewards) :
  calculate random userActivity chestType = Normal rewards ->
  exists table drawn,
    rewardTable chestType = Some table
    /\ sublist drawn table
    /\ items rewards
       = map (fun reward =>
                {| type := type reward;
                   value := (value reward * bonusMultiplier rewards)%float;
                   probability := probability reward |}) drawn
    /\ Forall (fun reward =>
                 ge (value reward * bonusMultiplier rewards)%float (value reward) = true)
         drawn
    /\ totalValue rewards = sum (map value (items rewards)).
Proof.
  unfold calculate, getBaseRewards.
  destruct (rewardTable chestType) as [table |] eqn:Htable; [| discriminate].
  intros [= <-]. cbn [items bonusMultiplier totalValue].
  exists table, (sample random 0 table).
  split; [done |]. split; [apply sample_sublist |]. split; [done |]. split.
  - apply Forall_forall. intros reward Hin.
    apply (scaled_value_not_lower userActivity table);
      [by eapply rewardTable_cases |].
    eapply elem_of_sublist; [exact Hin | apply sample_sublist].
  - unfold sum. rewrite !fold_left_map_inside. reflexivity.
Qed.

Lemma calculate_items_witness :
  exists table drawn,
    rewardTable "gold" = Some table
    /\ sublist drawn table
    /\ [ {| type := "coins"; value := 40; probability := 0.7 |};
         {| type := "bonus"; value := 24; probability := 0.5 |} ]
       = map (fun reward =>
                {| type := type reward;
                   value := (value reward * 1.6)%float;
                   probability := probability reward |}) drawn
    /\ Forall (fun reward => ge (value reward * 1.6)%float (value reward) = true) drawn
    /\ 64%float = sum (map value
                      [ {| type := "coins"; value := 40; probability := 0.7 |};
                        {| type := "bonus"; value := 24; probability := 0.5 |} ]).
Proof.
  apply (calculate_items (fun _ => 0.45%float) vipSignals "gold"
           {| items := [ {| type := "coins"; value := 40; probability := 0.7 |};
                         {| type := "bonus"; value := 24; probability := 0.5 |} ];
              totalValue := 64;
              bonusMultiplier := 1.6 |}).
  vm_compute. reflexivity.
Defined.

(** X17: [calculateRewards] throws exactly for a chest type that names a
    member inherited from [Object.prototype], and what it throws is a
    TypeError; for every other chest type it returns, with the user id
    and the chest type it was given. *)
Theorem calculateRewards_throws (random : nat -> number) (now : Z) (userId : string)
  (userActivity : UserActivity) (chestType : string) :
  match calculateRewards random now userId userActivity chestType with
  | Throw error => error = TypeError /\ inherited chestType = true
  | Normal report =>
      inherited chestType = false
      /\ rr_userId report = userId /\ Engine.chestType report = chestType
      /\ rr_timestamp report = now
  end.
Proof.
  unfold calculateRewards, calculate, getBaseRewards, rewardTable.
  destruct (String.eqb_spec chestType "silver") as [-> |]; [by cbn |].
  destruct (String.eqb_spec chestType "gold") as [-> |]; [by cbn |].
  destruct (String.eqb_spec chestType "platinum") as [-> |]; [by cbn |].
  by destruct (inherited chestType).
Qed.

End RewardFacts.


(** ** The configuration resolver as a whole *)

Section ResolverOutcomes.
Import JS GamificationEngine.
Context {Value : Type} (JSON_parse : string -> option Value).
Context (clock : nat -> Z) (configService : string -> Response Value).

Abbreviation getConfig := (getConfig JSON_parse clock configService).
Abbreviation fromRedis := (fromRedis JSON_parse clock configService).
Abbreviation fromService := (fromService clock configService).

(** A call that does not miss the in-process cache returns the entry's
    value after one reading of the clock. *)
Lemma getConfig_local_hit (key : string) (w : World Value) :
  local_miss clock key w = false ->
  exists entry,
    localCache w !! key = Some entry
    /\ getConfig key w = (Normal (Some (value entry)), ticked w).
Proof.
  unfold local_miss. intros Hhit.
  destruct (localCache w !! key) as [entry |] eqn:Hentry; [| done].
  exists entry. split; [done |].
  unfold GamificationEngine.getConfig, try_catch, bind, localCache_get.
  rewrite Hentry. cbn.
  apply negb_false_iff in Hhit. by rewrite Hhit.
Qed.

(** X18: an entry of the in-process cache that is younger than five
    minutes is returned as it is, after one reading of the clock; the
    distributed cache and the service play no part. *)
Theorem getConfig_fresh_entry (key : string) (w : World Value) (entry : CacheEntry Value) :
  localCache w !! key = Some entry ->
  (clock (reads w) - timestamp entry < cacheTtl)%Z ->
  getConfig key w = (Normal (Some (value entry)), ticked w).
Proof.
  intros Hentry Hfresh.
  unfold GamificationEngine.getConfig, try_catch, bind, localCache_get.
  rewrite Hentry. cbn.
  apply Z.ltb_lt in Hfresh. by rewrite Hfresh.
Qed.

(** X19: when the in-process cache misses and the distributed cache
    holds a JSON text under the namespaced key, the parsed value is
    returned and stored in the in-process cache with the clock's
    reading; the service plays no part. *)
Theorem getConfig_redis_hit (key : string) (w : World Value) (text : string) (v : Value) :
  local_miss clock key w = true ->
  redisClient w = true ->
  redis_up w = true ->
  redis w !! String.append "config_cache:" key = Some text ->
  truthy text = true ->
  JSON_parse text = Some v ->
  getConfig key w = (Normal (Some v), stored clock key v (afterLocalMiss key w)).
Proof.
  intros Hmiss Hclient Hup Htext Htruthy Hparse.
  rewrite (getConfig_local_miss JSON_parse clock configService key w Hmiss).
  unfold try_catch, GamificationEngine.fromRedis, redisClient_get, bind.
  assert (Hclient' : redisClient (afterLocalMiss key w) = true)
    by (unfold afterLocalMiss; by destruct (localCache w !! key)).
  assert (Hup' : redis_up (afterLocalMiss key w) = true)
    by (unfold afterLocalMiss; by destruct (localCache w !! key)).
  assert (Htext' : redis (afterLocalMiss key w) !! String.append "config_cache:" key
                   = Some text)
    by (unfold afterLocalMiss; by destruct (localCache w !! key)).
  rewrite Hclient', Hup'. cbn. rewrite Htext', Htruthy, Hparse. reflexivity.
Qed.

(** X20: when the in-process cache misses and the distributed cache
    rejects the command, or holds a text that is not JSON, [getConfig]
    returns [null] and caches nothing, without asking the service. *)
Theorem getConfig_redis_failure (key : string) (w : World Value) :
  local_miss clock key w = true ->
  redisClient w = true ->
  redis_up w = false
  \/ (exists text,
        redis_up w = true
        /\ redis w !! String.append "config_cache:" key = Some text
        /\ truthy text = true /\ JSON_parse text = None) ->
  getConfig key w = (Normal None, afterLocalMiss key w).
Proof.
  intros Hmiss Hclient Hfail.
  rewrite (getConfig_local_miss JSON_parse clock configService key w Hmiss).
  unfold try_catch, GamificationEngine.fromRedis, redisClient_get, bind.
  assert (Hclient' : redisClient (afterLocalMiss key w) = true)
    by (unfold afterLocalMiss; by destruct (localCache w !! key)).
  assert (Hup' : redis_up (afterLocalMiss key w) = redis_up w)
    by (unfold afterLocalMiss; by destruct (localCache w !! key)).
  assert (Htext' : redis (afterLocalMiss key w) = redis w)
    by (unfold afterLocalMiss; by destruct (localCache w !! key)).
  rewrite Hclient', Hup', Htext'.
  destruct Hfail as [Hdown | (text & Hup & Htext & Htruthy & Hparse)].
  - by rewrite Hdown.
  - rewrite Hup. cbn. by rewrite Htext, Htruthy, Hparse.
Qed.

(** *** What a call can do to the engine *)

Lemma fromService_outcome (key : string) (w : World Value) :
  fromService key w = (Normal None, w)
  \/ (exists e, fromService key w = (Throw e, w))
  \/ (exists v, fromService key w = (Normal (Some v), stored clock key v w)).
Proof.
  unfold GamificationEngine.fromService, axios_get, bind.
  destruct (configService key) as [| [] [config |]]; cbn;
    try (by left); try (right; left; by eexists).
  destruct (get_typed_value config); cbn;
    try (right; left; by eexists); right; right; by eexists.
Qed.

Lemma fromRedis_outcome (key : string) (w : World Value) :
  fromRedis key w = (Normal None, w)
  \/ (exists e, fromRedis key w = (Throw e, w))
  \/ (exists v, fromRedis key w = (Normal (Some v), stored clock key v w)).
Proof.
  unfold GamificationEngine.fromRedis, redisClient_get, bind.
  destruct (redisClient w); [| apply fromService_outcome].
  destruct (redis_up w); cbn; [| right; left; by eexists].
  destruct (redis w !! String.append "config_cache:" key) as [text |];
    [| apply fromService_outcome].
  destruct (truthy text); [| apply fromService_outcome].
  destruct (JSON_parse text); cbn; [right; right | right; left]; by eexists.
Qed.

(** Every call ends in one of three ways: [null] is returned and nothing
    is stored; an entry is served from the in-process cache; or a value
    is returned after it was stored under the key.  Before that the
    clock was read once if the key had an entry. *)
Lemma getConfig_outcome (key : string) (w : World Value) :
  let w0 := afterLocalMiss key w in
  getConfig key w = (Normal None, w0)
  \/ (exists entry,
        localCache w !! key = Some entry
        /\ getConfig key w = (Normal (Some (value entry)), w0))
  \/ (exists v, getConfig key w = (Normal (Some v), stored clock key v w0)).
Proof.
  intros w0. subst w0.
  destruct (local_miss clock key w) eqn:Hmiss.
  - rewrite (getConfig_local_miss JSON_parse clock configService key w Hmiss).
    unfold try_catch.
    destruct (fromRedis_outcome key (afterLocalMiss key w)) as [E | [[e E] | [v E]]];
      rewrite E; [by left | by left | right; right; by exists v].
  - destruct (getConfig_local_hit key w Hmiss) as (entry & Hentry & E).
    right; left. exists entry. split; [done |].
    rewrite E. unfold afterLocalMiss. by rewrite Hentry.
Qed.

(** X21: a call of [getConfig] never writes to the distributed cache,
    never touches the entry of another key, never removes the entry of
    its own key, and reads the clock at most twice. *)
Theorem getConfig_frame (key : string) (w : World Value) :
  let w' := (getConfig key w).2 in
  redis w' = redis w
  /\ redisClient w' = redisClient w
  /\ redis_up w' = redis_up w
  /\ (forall k, k <> key -> localCache w' !! k = localCache w !! k)
  /\ (is_Some (localCache w !! key) -> is_Some (localCache w' !! key))
  /\ reads w <= reads w' <= reads w + 2.
Proof.
  intros w'. subst w'.
  assert (H0 : redis (afterLocalMiss key w) = redis w
               /\ redisClient (afterLocalMiss key w) = redisClient w
               /\ redis_up (afterLocalMiss key w) = redis_up w
               /\ localCache (afterLocalMiss key w) = localCache w
               /\ reads w <= reads (afterLocalMiss key w) <= reads w + 1).
  { unfold afterLocalMiss. destruct (localCache w !! key); cbn; repeat split; lia. }
  destruct H0 as (H1 & H2 & H3 & H4 & H5).
  destruct (getConfig_outcome key w) as [E | [(entry & _ & E) | (v & E)]];
    rewrite E; cbn [snd stored redis redisClient redis_up localCache reads];
    rewrite ?H1, ?H2, ?H3, ?H4; repeat split; try done; try lia.
  - intros k Hk. by rewrite lookup_insert_ne.
  - intros _. rewrite lookup_insert_eq. by eexists.
Qed.


(** X23: a value fetched from the service is served from the in-process
    cache for the next five minutes: as long as the clock reads less than
    300000 ms more than when the value was stored, the next call returns
    it whatever the distributed cache and the service then hold; once
    the clock reads 300000 ms more, the entry is no longer served. *)
Theorem getConfig_served_within_ttl (key : string) (w : World Value)
  (config : Config Value) (v : Value) :
  local_miss clock key w = true ->
  redis_miss key w = true ->
  configService key = Resolves true (Some config) ->
  typed_value config = Some v ->
  let w1 := (getConfig key w).2 in
  let storedAt := clock (reads (afterLocalMiss key w)) in
  ((clock (reads w1) - storedAt < cacheTtl)%Z ->
   forall (JSON_parse' : string -> option Value)
          (configService' : string -> Response Value),
     GamificationEngine.getConfig JSON_parse' clock configService' key w1
     = (Normal (Some v), ticked w1))
  /\ ((cacheTtl <= clock (reads w1) - storedAt)%Z -> local_miss clock key w1 = true).
Proof.
  intros Hl Hr Hs Hv w1 storedAt. subst w1 storedAt.
  rewrite (getConfig_local_miss JSON_parse clock configService key w Hl).
  unfold try_catch.
  rewrite (fromRedis_miss JSON_parse clock configService)
    by (rewrite redis_miss_afterLocalMiss; exact Hr).
  rewrite (fromService_success clock configService key _ config v Hs Hv).
  cbn [snd]. set (w0 := afterLocalMiss key w).
  assert (Hentry : localCache (stored clock key v w0) !! key
                   = Some {| value := v; timestamp := clock (reads w0) |}).
  { unfold stored. cbn [localCache]. apply lookup_insert_eq. }
  split.
  - intros Hfresh JSON_parse' configService'.
    unfold GamificationEngine.getConfig, try_catch, bind, localCache_get.
    rewrite Hentry. cbn [timestamp value Date_now].
    apply Z.ltb_lt in Hfresh. cbn in Hfresh |- *. by rewrite Hfresh.
  - intros Hexpired. unfold local_miss. rewrite Hentry. cbn [timestamp].
    apply negb_true_iff, Z.ltb_ge. exact Hexpired.
Qed.

End ResolverOutcomes.

Section ResolverOutcomeExamples.
Import JS GamificationEngine Scenarios EngineScenarios.

(** X18 at an engine that cached the value one second earlier, with the
    service unreachable. *)
Lemma getConfig_fresh_entry_witness :
  getConfig parseText stoppedClock unreachableService "chest_success_rate" warmWorld
  = (Normal (Some "0.7"%string), ticked warmWorld).
Proof.
  apply (getConfig_fresh_entry parseText stoppedClock unreachableService
           "chest_success_rate" warmWorld
           {| value := "0.7"%string; timestamp := vipNow - 1000 |});
    reflexivity.
Defined.

(** X19 at an engine whose distributed cache holds the value, with the
    service unreachable. *)
Lemma getConfig_redis_hit_witness :
  getConfig parseText stoppedClock unreachableService "chest_success_rate" redisWorld
  = (Normal (Some "0.5"%string),
     stored stoppedClock "chest_success_rate" "0.5"%string redisWorld).
Proof.
  apply (getConfig_redis_hit parseText stoppedClock unreachableService
           "chest_success_rate" redisWorld "0.5"%string "0.5"%string);
    reflexivity.
Defined.

(** X20 at an engine whose connection to the distributed cache is down,
    although the service would serve the key. *)
Lemma getConfig_redis_failure_witness :
  getConfig parseText stoppedClock servingService "chest_success_rate" downWorld
  = (Normal None, downWorld).
Proof.
  apply (getConfig_redis_failure parseText stoppedClock servingService
           "chest_success_rate" downWorld); [reflexivity | reflexivity |].
  left. reflexivity.
Defined.


(** X23 at a fresh engine: the value fetched at the first reading of the
    clock is served one second later, although the service has become
    unreachable. *)
Lemma getConfig_served_within_ttl_witness :
  let w1 := (getConfig parseText tickingClock servingService
               "chest_success_rate" freshWorld).2 in
  getConfig parseText tickingClock unreachableService "chest_success_rate" w1
  = (Normal (Some "0.7"%string), ticked w1).
Proof.
  intros w1.
  apply (proj1 (getConfig_served_within_ttl parseText tickingClock servingService
                  "chest_success_rate" freshWorld
                  {| get_typed_value := NoGetter; config_value := "0.7"%string |}
                  "0.7"%string eq_refl eq_refl eq_refl eq_refl)).
  vm_compute. reflexivity.
Defined.

End ResolverOutcomeExamples.


(** ** The metrics *)

Section MetricsFacts.
Import JS GamificationEngine Engine.
Context {Value : Type} (JSON_parse : string -> option Value).
Context (clock : nat -> Z) (configService : string -> Response Value).

Abbreviation getConfig := (getConfig JSON_parse clock configService).

Lemma reported_cache_hits_size (w : World Value) :
  redisClient w = false \/ redis_up w = true ->
  reported_cache_hits w = Some (size (localCache w)).
Proof.
  unfold reported_cache_hits, getMetrics, redisClient_ping, bind, ret.
  intros [H | H].
  - by rewrite H.
  - destruct (redisClient w); [| done]. by rewrite H.
Qed.

(** X24: [getMetrics] never throws and changes nothing.  It reports an
    error exactly when the engine has a client and the distributed cache
    rejects the ping; otherwise it reports the number of keys in the
    in-process cache as [cache_hits] and whether there is a client as
    [redis_connected]. *)
Theorem getMetrics_report (w : World Value) :
  (getMetrics w).2 = w
  /\ match (getMetrics w).1 with
     | MetricsError error =>
         error = RequestError /\ redisClient w = true /\ redis_up w = false
     | MetricsOf metrics =>
         cache_hits metrics = size (localCache w)
         /\ redis_connected metrics = redisClient w
         /\ (redisClient w = true -> redis_up w = true)
     end.
Proof.
  unfold getMetrics, redisClient_ping, bind, ret.
  destruct (redisClient w), (redis_up w); cbn; repeat split; done.
Qed.

(** X25: [cache_hits] counts the keys of the in-process cache, not the
    hits: a call that is served from the in-process cache leaves the
    figure as it was, and the first fetch of a key from the service
    raises it by one. *)
Theorem cache_hits_counts_keys (key : string) (w : World Value) :
  redisClient w = false \/ redis_up w = true ->
  (forall entry,
      localCache w !! key = Some entry ->
      (clock (reads w) - timestamp entry < cacheTtl)%Z ->
      reported_cache_hits (getConfig key w).2 = reported_cache_hits w)
  /\ (forall config v,
        localCache w !! key = None ->
        redis_miss key w = true ->
        configService key = Resolves true (Some config) ->
        typed_value config = Some v ->
        reported_cache_hits w = Some (size (localCache w))
        /\ reported_cache_hits (getConfig key w).2 = Some (S (size (localCache w)))).
Proof.
  intros Hredis. split.
  - intros entry Hentry Hfresh.
    assert (Hhit : local_miss clock key w = false).
    { unfold local_miss. rewrite Hentry.
      apply negb_false_iff. by apply Z.ltb_lt. }
    destruct (getConfig_local_hit JSON_parse clock configService key w Hhit)
      as (entry' & _ & E).
    rewrite E.
    cbn [snd]. rewrite !reported_cache_hits_size; done.
  - intros config v Hnone Hmiss Hservice Hvalue.
    split; [by apply reported_cache_hits_size |].
    assert (Hlocal : local_miss clock key w = true)
      by (unfold local_miss; by rewrite Hnone).
    rewrite (getConfig_local_miss JSON_parse clock configService key w Hlocal).
    unfold try_catch, afterLocalMiss. rewrite Hnone.
    rewrite (fromRedis_miss JSON_parse clock configService key w Hmiss).
    rewrite (fromService_success clock configService key w config v Hservice Hvalue).
    cbn [snd]. rewrite reported_cache_hits_size by done.
    unfold stored. cbn [localCache]. by rewrite map_size_insert_None.
Qed.

End MetricsFacts.

Section MetricsExamples.
Import JS GamificationEngine Engine Scenarios EngineScenarios.

(** X25 at a fresh engine and at one that has cached the key. *)
Lemma cache_hits_counts_keys_witness :
  reported_cache_hits
    (getConfig parseText stoppedClock servingService "chest_success_rate" warmWorld).2
  = reported_cache_hits warmWorld
  /\ reported_cache_hits freshWorld = Some 0
  /\ reported_cache_hits
       (getConfig parseText stoppedClock servingService "chest_success_rate" freshWorld).2
     = Some 1.
Proof.
  split.
  - apply (proj1 (cache_hits_counts_keys parseText stoppedClock servingService
                    "chest_success_rate" warmWorld (or_intror eq_refl))
             {| value := "0.7"%string; timestamp := Scenarios.vipNow - 1000 |});
      reflexivity.
  - apply (proj2 (cache_hits_counts_keys parseText stoppedClock servingService
                    "chest_success_rate" freshWorld (or_intror eq_refl))
             {| get_typed_value := NoGetter; config_value := "0.7"%string |}
             "0.7"%string);
      reflexivity.
Defined.

End MetricsExamples.


(** ** A scenario of the test suite *)

Section ScenarioFacts.
Import JS Engine.

(** X26: every scenario of the test suite completes.  The user profile
    handed to the optimizer has no score, since the behavior report
    names it [behaviorScore] and the suite reads [score]: the summary's
    score is [undefined], the confidence is 0.6 whatever the user did,
    and only the risk level shapes the recommendation: platinum, gold
    and two silver chests for the risk level low, gold and two silver
    chests otherwise.  The rewards are multiplied by 1.3 for the risk
    level low and by 1.0 otherwise.  The risk level is never very
    high. *)
Theorem runScenario_outcome (tzOffset : Z -> Z) (clock : nat -> Z)
  (random : nat -> number) (name userId : string) (userData : BehaviorAnalyzer.UserData) :
  exists run,
    runScenario tzOffset clock random name userId userData = ScenarioDone run
    /\ summary_behaviorScore (summary run) = None
    /\ confidence (chestOptimization run) = 0.6%float
    /\ map (fun chest => (ChestOptimizer.type chest, ChestOptimizer.quantity chest))
         (recommendedChests (chestOptimization run))
       = match riskLevel (behaviorAnalysis run) with
         | BehaviorAnalyzer.low => [("platinum", 1); ("gold", 1); ("silver", 2)]
         | _ => [("gold", 1); ("silver", 2)]
         end%string
    /\ summary_recommendedChests (summary run)
       = match riskLevel (behaviorAnalysis run) with
         | BehaviorAnalyzer.low => 3
         | _ => 2
         end
    /\ bonusMultiplier (scenario_rewards run)
       = match riskLevel (behaviorAnalysis run) with
         | BehaviorAnalyzer.low => 1.3%float
         | _ => 1.0%float
         end
    /\ riskLevel (behaviorAnalysis run) <> BehaviorAnalyzer.very_high.
Proof.
  unfold runScenario, calculateRewards, RewardCalculator.calculate,
    RewardCalculator.getBaseRewards.
  change (RewardCalculator.rewardTable "gold") with (Some RewardCalculator.gold).
  cbv iota beta.
  eexists. split; [reflexivity |].
  cbn [summary summary_behaviorScore chestOptimization behaviorAnalysis scenario_rewards
       summary_recommendedChests bonusMultiplier confidence recommendedChests riskLevel
       analyzeUserBehavior optimizeChestDistribution RewardCalculator.bonusMultiplier].
  unfold BehaviorAnalyzer.analyze. cbn [BehaviorAnalyzer.riskLevel].
  match goal with |- context [BehaviorAnalyzer.calculateBehaviorScore ?a] =>
    destruct (possibleScores_base _ (calculateBehaviorScore_values a)) as [_ Hrisk];
    generalize dependent (BehaviorAnalyzer.calculateBehaviorScore a)
  end.
  intros s Hrisk.
  destruct (BehaviorAnalyzer.determineRiskLevel s);
    [| | | done]; vm_compute; repeat split; try reflexivity; discriminate.
Qed.

End ScenarioFacts.


(** ** The reward endpoint *)

Section ServerFacts.
Import JS Server.

(** X27: the reward endpoint answers 400 exactly when the body has no
    [userActivity] or its [userId] is absent or empty; otherwise it
    answers 500 exactly when the chest type names a member inherited
    from [Object.prototype], and 200 for every other chest type, known
    or not, with a multiplier between 1.0 and 1.6.  A body without chest
    type is answered like one with the chest type "silver". *)
Theorem calculateRewardsHandler_status (random : nat -> number) (clock : nat -> Z)
  (userActivity : option (option string * RewardCalculator.UserActivity))
  (chestType : option string) :
  let response := calculateRewardsHandler random clock userActivity chestType in
  let named := match chestType with Some t => t | None => "silver"%string end in
  let identified :=
    match userActivity with
    | Some (userId, _) => negb (falsy userId)
    | None => false
    end in
  match body response with
  | ClientError _ => statusCode response = 400 /\ identified = false
  | InternalError _ error _ =>
      statusCode response = 500 /\ identified = true
      /\ error = TypeError /\ inherited named = true
  | Success _ rewards =>
      statusCode response = 200 /\ identified = true
      /\ inherited named = false
      /\ Engine.chestType rewards = named
      /\ ge (Engine.bonusMultiplier rewards) 1.0 = true
      /\ ge 1.6 (Engine.bonusMultiplier rewards) = true
  end
  /\ calculateRewardsHandler random clock userActivity None
     = calculateRewardsHandler random clock userActivity (Some "silver"%string).
Proof.
  intros response named identified. subst response identified.
  split; [| reflexivity].
  unfold calculateRewardsHandler. fold named.
  destruct userActivity as [[userId activity] |]; [| done].
  destruct (falsy userId) eqn:Hid; [done |]. cbn [negb].
  assert (Hrange :
    ge (RewardCalculator.calculateBonusMultiplier activity) 1.0 = true
    /\ ge 1.6 (RewardCalculator.calculateBonusMultiplier activity) = true).
  { unfold RewardCalculator.calculateBonusMultiplier.
    destruct (gt (RewardCalculator.recentActivity activity) 0.8),
      (String.eqb (RewardCalculator.loyaltyLevel activity) "vip"),
      (String.eqb (RewardCalculator.loyaltyLevel activity) "premium"),
      (gt (RewardCalculator.weeklyVolume activity) 1000);
      vm_compute; split; reflexivity. }
  unfold Engine.calculateRewards, RewardCalculator.calculate,
    RewardCalculator.getBaseRewards, RewardCalculator.rewardTable.
  destruct (String.eqb_spec named "silver") as [Hnamed |];
    [rewrite Hnamed; by cbn |].
  destruct (String.eqb_spec named "gold") as [Hnamed |];
    [rewrite Hnamed; by cbn |].
  destruct (String.eqb_spec named "platinum") as [Hnamed |];
    [rewrite Hnamed; by cbn |].
  destruct (inherited named); by cbn.
Qed.

End ServerFacts.
